(** * Bolt payment strategy and the shipping-address fixture

    A shallow embedding of
    [src/payment/strategies/bolt/bolt-payment-strategy.ts] and
    [src/shipping/internal-shipping-addresses.mock.ts].

    The strategy is asynchronous glue around external collaborators (the
    checkout store, the action creators, the Bolt script loader and the Bolt
    SDK objects).  Its methods are embedded as programs in a small
    state-and-error monad over a tree of external calls: the strategy's private
    fields are threaded explicitly, a rejected promise is a [Rejected]
    outcome, and every call to a collaborator is a node of the tree whose
    answer is chosen by the environment. *)

From Stdlib Require Import List String Ascii ZArith NArith Bool Lia.
Import ListNotations.

Local Open Scope N_scope.

(** ** JavaScript strings and numbers *)

(** A JavaScript string is a sequence of UTF-16 code units. *)
Definition code_unit := N.
Definition jsstring := list code_unit.

(** A string literal of the source, as a sequence of code units. *)
Definition lit (s : string) : jsstring :=
  map N_of_ascii (list_ascii_of_string s).

(** The Number values the strategy can observe.  [Finite neg m e] stands for
    the double nearest to [(-1)^neg * m * 10^e]; the rounding itself is not
    modelled (it never yields NaN, and it is the identity on the integers
    below 2^53). *)
Inductive number : Type :=
| NaN
| Infinity (neg : bool)
| Finite (neg : bool) (m : N) (e : Z).

Definition isNaN (n : number) : bool :=
  match n with NaN => true | _ => false end.

(** WhiteSpace and LineTerminator code units (StrWhiteSpaceChar). *)
Definition isStrWhiteSpaceChar (c : code_unit) : bool :=
  existsb (N.eqb c)
    [9; 10; 11; 12; 13; 32; 160; 5760; 8232; 8233; 8239; 8287; 12288; 65279]
  || ((8192 <=? c) && (c <=? 8202)).

Fixpoint dropWhile {A : Type} (p : A -> bool) (l : list A) : list A :=
  match l with
  | [] => []
  | x :: r => if p x then dropWhile p r else l
  end.

Definition trimWhiteSpace (s : jsstring) : jsstring :=
  rev (dropWhile isStrWhiteSpaceChar (rev (dropWhile isStrWhiteSpaceChar s))).

(** The value of a digit in the given radix, if the code unit is one. *)
Definition digitValue (radix : N) (c : code_unit) : option N :=
  let v :=
    if (48 <=? c) && (c <=? 57) then Some (c - 48)
    else if (97 <=? c) && (c <=? 102) then Some (c - 87)
    else if (65 <=? c) && (c <=? 70) then Some (c - 55)
    else None in
  match v with
  | Some d => if d <? radix then Some d else None
  | None => None
  end.

(** The longest prefix of digits (their values), and the rest. *)
Fixpoint spanDigits (radix : N) (s : jsstring) : list N * jsstring :=
  match s with
  | [] => ([], [])
  | c :: r =>
      match digitValue radix c with
      | Some d => let (ds, rest) := spanDigits radix r in (d :: ds, rest)
      | None => ([], s)
      end
  end.

Definition digitsValue (radix : N) (ds : list N) : N :=
  fold_left (fun acc d => acc * radix + d) ds 0.

Fixpoint jsstring_eqb (a b : jsstring) : bool :=
  match a, b with
  | [], [] => true
  | x :: a1, y :: b1 => (x =? y) && jsstring_eqb a1 b1
  | _, _ => false
  end.

Definition isEmpty {A : Type} (l : list A) : bool :=
  match l with [] => true | _ => false end.

(** The magnitude of a StrUnsignedDecimalLiteral. *)
Inductive magnitude : Type :=
| MInfinity
| MDecimal (m : N) (e : Z).

(** ExponentPart, after the exponent indicator: an optional sign, at least
    one digit, and nothing else. *)
Definition parseExponent (s : jsstring) : option Z :=
  let '(neg, r) :=
    match s with
    | 43 :: r => (false, r)
    | 45 :: r => (true, r)
    | _ => (false, s)
    end in
  let (ds, rest) := spanDigits 10 r in
  if isEmpty ds || negb (isEmpty rest) then None
  else
    let v := Z.of_N (digitsValue 10 ds) in
    Some (if neg then (- v)%Z else v).

(** StrUnsignedDecimalLiteral: [Infinity], or digits with an optional
    fraction (at least one digit in all) and an optional exponent. *)
Definition parseUnsignedDecimal (s : jsstring) : option magnitude :=
  if jsstring_eqb s (lit "Infinity") then Some MInfinity
  else
    let (ip, r1) := spanDigits 10 s in
    let (fp, r2) :=
      match r1 with
      | 46 :: r => spanDigits 10 r
      | _ => ([], r1)
      end in
    if isEmpty ip && isEmpty fp then None
    else
      let m := digitsValue 10 (ip ++ fp) in
      let shift := Z.of_nat (List.length fp) in
      match r2 with
      | [] => Some (MDecimal m (- shift))
      | c :: r3 =>
          if (c =? 101) || (c =? 69) then
            match parseExponent r3 with
            | Some e => Some (MDecimal m (e - shift))
            | None => None
            end
          else None
      end.

(** StrDecimalLiteral: an optional sign before the unsigned literal. *)
Definition parseDecimal (s : jsstring) : number :=
  let '(neg, r) :=
    match s with
    | 43 :: r => (false, r)
    | 45 :: r => (true, r)
    | _ => (false, s)
    end in
  match parseUnsignedDecimal r with
  | Some MInfinity => Infinity neg
  | Some (MDecimal m e) => Finite neg m e
  | None => NaN
  end.

(** NonDecimalIntegerLiteral: [0x], [0o] or [0b] (either case) followed by
    at least one digit of that radix and nothing else; it takes no sign. *)
Definition parseNonDecimal (s : jsstring) : option N :=
  match s with
  | 48 :: p :: r =>
      let radix :=
        if (p =? 120) || (p =? 88) then Some 16
        else if (p =? 111) || (p =? 79) then Some 8
        else if (p =? 98) || (p =? 66) then Some 2
        else None in
      match radix with
      | Some b =>
          let (ds, rest) := spanDigits b r in
          if isEmpty ds || negb (isEmpty rest) then None
          else Some (digitsValue b ds)
      | None => None
      end
  | _ => None
  end.

(** StringToNumber: surrounding white space is dropped, the empty string is
    +0, and anything that is not a StrNumericLiteral is NaN. *)
Definition StringToNumber (s : jsstring) : number :=
  let t := trimWhiteSpace s in
  if isEmpty t then Finite false 0 0
  else
    match parseNonDecimal t with
    | Some n => Finite false n 0
    | None => parseDecimal t
    end.

(** Unary [+] on a value that is a string or [undefined] (the element of an
    array read past its end): ToNumber of [undefined] is NaN. *)
Definition unaryPlus (v : option jsstring) : number :=
  match v with
  | Some s => StringToNumber s
  | None => NaN
  end.

(** [s.split(sep)] for a separator of one code unit.  The result always has
    at least one element. *)
Fixpoint split (sep : code_unit) (s : jsstring) : list jsstring :=
  match s with
  | [] => [[]]
  | c :: r =>
      if c =? sep then [] :: split sep r
      else
        match split sep r with
        | [] => [[c]]
        | h :: t => (c :: h) :: t
        end
  end.

(** Truthiness of a value that is a string or [undefined]. *)
Definition truthy (v : option jsstring) : bool :=
  match v with
  | Some (_ :: _) => true
  | _ => false
  end.

Definition hyphen : code_unit := 45.

(** [!v] for a value that is an object or [undefined]. *)
Definition absent {A : Type} (v : option A) : bool :=
  match v with Some _ => false | None => true end.

(** A name between double quotes, as the error messages write it. *)
Definition quoted (name : string) : string :=
  String (ascii_of_nat 34) (name ++ String (ascii_of_nat 34) EmptyString).

Definition notProvided (name : string) : string :=
  ("Unable to initialize payment because " ++ quoted name
   ++ " argument is not provided.")%string.


(** ** Errors *)

Inductive MissingDataErrorType : Type :=
| MissingPaymentMethod
| MissingPayment.

Inductive NotInitializedErrorType : Type :=
| PaymentNotInitialized.

(** Modelled from the spec: the error classes are imported from
    [common/error/errors], [order/errors] and [payment/errors], which are not
    among the sources; section 7 names them.  Each is a constructor with the
    arguments the strategy passes.  [ExternalError] is an error value handed
    over by a collaborator, and [TypeError] the runtime's error on reading a
    property of [undefined]. *)
Inductive Error : Type :=
| InvalidArgumentError (message : string)
| MissingDataError (subtype : MissingDataErrorType)
| NotInitializedError (subtype : NotInitializedErrorType)
| OrderFinalizationNotRequiredError
| PaymentArgumentInvalidError (invalidFields : option (list string))
| PaymentMethodCancelledError
| PaymentMethodInvalidError
| TypeError
| ExternalError (message : jsstring).

(** How a promise settles, or how a call returns or throws. *)
Inductive outcome (A : Type) : Type :=
| Resolved (a : A)
| Rejected (e : Error).

Arguments Resolved {A} a.
Arguments Rejected {A} e.

Definition isResolved {A : Type} (o : outcome A) : bool :=
  match o with Resolved _ => true | Rejected _ => false end.

(** ** The data model *)

(** The types the strategy only passes along: what they hold is owned by the
    collaborators. *)
Class ExternalTypes : Type := {
  PaymentRequestOptions : Type;
  (** [OrderRequestBody] without its [payment] field. *)
  OrderFields : Type;
  (** The [paymentData] of a request, with the one field the strategy reads. *)
  PaymentInstrument : Type;
  shouldSaveInstrument : PaymentInstrument -> option bool;
  DeveloperConfig : Type;
  (** Handles of the Bolt SDK objects. *)
  BoltCheckout : Type;
  BoltEmbedded : Type;
  BoltEmbededField : Type
}.

(** Modelled from the spec: [BoltEmbeddedTokenize] and [BoltTransaction] are
    declared in [./bolt], which is not among the sources; the records hold the
    fields the strategy reads, all strings. *)
Record BoltEmbeddedTokenize : Type := {
  token : jsstring;
  last4 : jsstring;
  bin : jsstring;
  expiration : jsstring
}.

Record BoltTransaction : Type := {
  reference : jsstring
}.

(** What the promise of [tokenize()] resolves to, when it is not
    [undefined]. *)
Inductive TokenizeValue : Type :=
| TokenizeError (e : Error)
| Tokenized (r : BoltEmbeddedTokenize).

(** Which of the two callbacks handed to [configure] the Bolt UI calls. *)
Inductive BoltCallback : Type :=
| success (transaction : BoltTransaction)
| close.

(** The card fields of the embedded payment payload, as the object literal
    of [_executeWithBoltEmbedded] gives them. *)
Record CreditCardToken : Type := {
  cc_token : jsstring;
  last_four_digits : number;
  iin : number;
  expiration_month : number;
  expiration_year : number
}.

Record ProviderData : Type := {
  create_account : bool;
  embedded_checkout : bool
}.

(** Modelled from the spec: [Checkout], of which the strategy reads one
    field, compared with [undefined]. *)
Record Checkout : Type := {
  isStoreCreditApplied : option bool
}.

(** Modelled from the spec: [PaymentInitializeOptions] and its [bolt] part
    (section 3) are declared in [payment-request-options], which is not among
    the sources.  [methodId] may be missing at run time, and is tested. *)
Record BoltOptions : Type := {
  useBigCommerceCheckout : bool;
  containerId : option jsstring
}.

Record PaymentInitializeOptions : Type := {
  methodId : option jsstring;
  bolt : option BoltOptions
}.

Section Strategy.

Context {X : ExternalTypes}.

(** Modelled from the spec: [PaymentMethod] (section 3), with the fields the
    strategy reads.  [initializationData] is untyped in the source;
    [embeddedOneClickEnabled] is only ever tested for truthiness, and is
    modelled by it. *)
Record InitializationData : Type := {
  publishableKey : option jsstring;
  developerConfig : option DeveloperConfig;
  embeddedOneClickEnabled : bool
}.

Record PaymentMethodConfig : Type := {
  testMode : option bool
}.

Record PaymentMethod : Type := {
  initializationData : option InitializationData;
  config : option PaymentMethodConfig;
  clientToken : option jsstring
}.

(** Modelled from the spec: [InternalCheckoutSelectors], the store state,
    with the two selectors the strategy reads. *)
Record InternalCheckoutSelectors : Type := {
  getPaymentMethod : option jsstring -> option PaymentMethod;
  getCheckoutOrThrow : outcome Checkout
}.

(** Modelled from the spec: [OrderRequestBody] (section 3), split as
    [execute] splits it, [{ payment, ...order } = payload]; both fields of
    [payment] are tested for presence. *)
Record OrderPaymentRequestBody : Type := {
  payment_methodId : option jsstring;
  paymentData : option PaymentInstrument
}.

Record OrderRequestBody : Type := {
  payment : option OrderPaymentRequestBody;
  order : OrderFields
}.

(** The [paymentData] of a payment submission, one shape per path. *)
Inductive PaymentData : Type :=
| NonceData (nonce : jsstring) (shouldSave : option bool)
| FormattedPayload (credit_card_token : CreditCardToken)
    (provider_data : ProviderData)
| InstrumentWithNonce (instrument : PaymentInstrument) (nonce : jsstring).

Record Payment : Type := {
  submit_methodId : option jsstring;
  submit_paymentData : PaymentData
}.

(** What the four action creators build and the store dispatches. *)
Inductive Action : Type :=
| submitOrder (o : OrderFields) (options : option PaymentRequestOptions)
| applyStoreCredit (useStoreCredit : bool)
| loadPaymentMethod (id : option jsstring)
    (options : option PaymentRequestOptions)
| submitPayment (p : Payment).

(** ** Calls to the collaborators *)

Inductive Call : Type :=
| store_getState
| store_dispatch (a : Action)
| loadBoltClient (key : option jsstring) (test : option bool)
    (dev : option DeveloperConfig)
| loadBoltEmbedded (key : option jsstring) (test : option bool)
    (dev : option DeveloperConfig)
| boltEmbedded_create (e : BoltEmbedded) (name : jsstring)
| embeddedField_mount (f : BoltEmbededField) (selector : jsstring)
| embeddedField_tokenize (f : BoltEmbededField)
| boltClient_configure_open (c : BoltCheckout) (orderToken : jsstring)
| onSuccess_callback
| boltClient_getTransactionReference (c : BoltCheckout).

(** What each call answers.  Reading the store state cannot fail and the
    completion callback's result is ignored; every other call may throw or
    reject. *)
Definition Resp (c : Call) : Type :=
  match c with
  | store_getState => InternalCheckoutSelectors
  | store_dispatch _ => outcome InternalCheckoutSelectors
  | loadBoltClient _ _ _ => outcome BoltCheckout
  | loadBoltEmbedded _ _ _ => outcome BoltEmbedded
  | boltEmbedded_create _ _ => outcome BoltEmbededField
  | embeddedField_mount _ _ => outcome unit
  | embeddedField_tokenize _ => outcome (option TokenizeValue)
  | boltClient_configure_open _ _ => outcome BoltCallback
  | onSuccess_callback => unit
  | boltClient_getTransactionReference _ => outcome (option jsstring)
  end.

(** A program: a result, or a call and what to do with its answer. *)
Inductive Prog (A : Type) : Type :=
| Ret (a : A)
| Do (c : Call) (k : Resp c -> Prog A).

Arguments Ret {A} a.
Arguments Do {A} c k.

Fixpoint pbind {A B : Type} (p : Prog A) (f : A -> Prog B) : Prog B :=
  match p with
  | Ret a => f a
  | Do c k => Do c (fun r => pbind (k r) f)
  end.

(** The environment: it answers every call, from a state of its own. *)
Definition Handler (W : Type) : Type := forall c : Call, W -> Resp c * W.

(** Running a program against an environment: the result, the environment's
    final state, and the calls made, in order. *)
Fixpoint run {W A : Type} (h : Handler W) (p : Prog A) (w : W)
  : A * W * list Call :=
  match p with
  | Ret a => (a, w, [])
  | Do c k =>
      let (r, w1) := h c w in
      let '(a, w2, log) := run h (k r) w1 in
      (a, w2, c :: log)
  end.

(** [always P p]: whatever the collaborators answer, the result satisfies
    [P]. *)
Fixpoint always {A : Type} (P : A -> Prop) (p : Prog A) : Prop :=
  match p with
  | Ret a => P a
  | Do c k => forall r, always P (k r)
  end.

(** ** The strategy's fields *)

Record BoltPaymentStrategy : Type := {
  _boltClient : option BoltCheckout;
  _boltEmbedded : option BoltEmbedded;
  _embeddedField : option BoltEmbededField;
  _useBoltClient : bool;
  _useBoltEmbedded : bool
}.

(** The field initialisers of the class. *)
Definition newStrategy : BoltPaymentStrategy :=
  {| _boltClient := None;
     _boltEmbedded := None;
     _embeddedField := None;
     _useBoltClient := false;
     _useBoltEmbedded := false |}.

Definition set_boltClient (v : option BoltCheckout) (s : BoltPaymentStrategy) :=
  {| _boltClient := v;
     _boltEmbedded := _boltEmbedded s;
     _embeddedField := _embeddedField s;
     _useBoltClient := _useBoltClient s;
     _useBoltEmbedded := _useBoltEmbedded s |}.

Definition set_boltEmbedded (v : option BoltEmbedded) (s : BoltPaymentStrategy) :=
  {| _boltClient := _boltClient s;
     _boltEmbedded := v;
     _embeddedField := _embeddedField s;
     _useBoltClient := _useBoltClient s;
     _useBoltEmbedded := _useBoltEmbedded s |}.

Definition set_embeddedField (v : option BoltEmbededField) (s : BoltPaymentStrategy) :=
  {| _boltClient := _boltClient s;
     _boltEmbedded := _boltEmbedded s;
     _embeddedField := v;
     _useBoltClient := _useBoltClient s;
     _useBoltEmbedded := _useBoltEmbedded s |}.

Definition set_useBoltClient (v : bool) (s : BoltPaymentStrategy) :=
  {| _boltClient := _boltClient s;
     _boltEmbedded := _boltEmbedded s;
     _embeddedField := _embeddedField s;
     _useBoltClient := v;
     _useBoltEmbedded := _useBoltEmbedded s |}.

Definition set_useBoltEmbedded (v : bool) (s : BoltPaymentStrategy) :=
  {| _boltClient := _boltClient s;
     _boltEmbedded := _boltEmbedded s;
     _embeddedField := _embeddedField s;
     _useBoltClient := _useBoltClient s;
     _useBoltEmbedded := v |}.

(** ** The monad of the methods

    A method is a program from the fields before to an outcome and the
    fields after; a rejection keeps the fields written so far. *)
Definition M (A : Type) : Type :=
  BoltPaymentStrategy -> Prog (outcome A * BoltPaymentStrategy).

Definition ret {A : Type} (a : A) : M A :=
  fun s => Ret (Resolved a, s).

Definition throw {A : Type} (e : Error) : M A :=
  fun s => Ret (Rejected e, s).

Definition bind {A B : Type} (m : M A) (f : A -> M B) : M B :=
  fun s =>
    pbind (m s) (fun '(o, s1) =>
      match o with
      | Resolved a => f a s1
      | Rejected e => Ret (Rejected e, s1)
      end).

(** [this], and an assignment to its fields. *)
Definition this : M BoltPaymentStrategy :=
  fun s => Ret (Resolved s, s).

Definition assign (f : BoltPaymentStrategy -> BoltPaymentStrategy) : M unit :=
  fun s => Ret (Resolved tt, f s).

(** A value that was returned or thrown. *)
Definition settle {A : Type} (o : outcome A) : M A :=
  fun s => Ret (o, s).

(** A call that cannot fail. *)
Definition call (c : Call) : M (Resp c) :=
  fun s => Do c (fun r => Ret (Resolved r, s)).

Notation "x <- m ;; k" := (bind m (fun x => k))
  (at level 61, m at next level, right associativity).
Notation "m ;;; k" := (bind m (fun _ => k))
  (at level 61, right associativity).
Notation "'await' c" := (bind (call c) settle) (at level 10, c at level 9).

(** ** The strategy's methods *)

Definition _getBoltClient : M BoltCheckout :=
  s <- this ;;
  match _boltClient s with
  | None => throw (NotInitializedError PaymentNotInitialized)
  | Some boltClient => ret boltClient
  end.

Definition _getBoltEmbedded : M BoltEmbedded :=
  s <- this ;;
  match _boltEmbedded s with
  | None => throw (NotInitializedError PaymentNotInitialized)
  | Some boltEmbedded => ret boltEmbedded
  end.

Definition _mountBoltEmbeddedField (containerId : jsstring) : M unit :=
  boltEmbedded <- _getBoltEmbedded ;;
  embeddedField <- await (boltEmbedded_create boltEmbedded (lit "payment_field")) ;;
  await (embeddedField_mount embeddedField (lit "#" ++ containerId)) ;;;
  assign (set_embeddedField (Some embeddedField)).

(** It reads no field and calls no collaborator: it returns or throws. *)
Definition _validateTokenizeResult (tokenizeResult : BoltEmbeddedTokenize)
  : outcome unit :=
  let lastFourDigits := unaryPlus (Some (last4 tokenizeResult)) in
  let iin := unaryPlus (Some (bin tokenizeResult)) in
  let expirationMonth :=
    unaryPlus (nth_error (split hyphen (lit "" ++ expiration tokenizeResult)) 1) in
  let expirationYear :=
    unaryPlus (nth_error (split hyphen (lit "" ++ expiration tokenizeResult)) 0) in
  if negb (truthy (Some (token tokenizeResult)))
     || isNaN lastFourDigits
     || isNaN iin
     || isNaN expirationMonth
     || isNaN expirationYear
  then Rejected (PaymentArgumentInvalidError None)
  else Resolved tt.

Definition initialize (options : PaymentInitializeOptions)
  : M InternalCheckoutSelectors :=
  if negb (truthy (methodId options)) then
    throw (InvalidArgumentError (notProvided "options.methodId"))
  else
    match bolt options with
    | Some bolt =>
        if useBigCommerceCheckout bolt then
          state <- call store_getState ;;
          let paymentMethod := getPaymentMethod state (methodId options) in
          let initData :=
            match paymentMethod with
            | Some pm => initializationData pm
            | None => None
            end in
          let conf :=
            match paymentMethod with
            | Some pm => config pm
            | None => None
            end in
          let key :=
            match initData with Some d => publishableKey d | None => None end in
          let dev :=
            match initData with Some d => developerConfig d | None => None end in
          let oneClick :=
            match initData with
            | Some d => embeddedOneClickEnabled d
            | None => false
            end in
          let test :=
            match conf with Some c => testMode c | None => None end in
          if absent paymentMethod || negb (truthy key) then
            throw (MissingDataError MissingPaymentMethod)
          else
            client <- await (loadBoltClient key test dev) ;;
            assign (set_boltClient (Some client)) ;;;
            assign (set_useBoltClient
                      (useBigCommerceCheckout bolt && negb oneClick)) ;;;
            assign (set_useBoltEmbedded
                      (useBigCommerceCheckout bolt && oneClick)) ;;;
            s <- this ;;
            (if _useBoltEmbedded s then
               match containerId bolt with
               | Some (c :: r) =>
                   embedded <- await (loadBoltEmbedded key test dev) ;;
                   assign (set_boltEmbedded (Some embedded)) ;;;
                   _mountBoltEmbeddedField (c :: r)
               | _ =>
                   throw (InvalidArgumentError
                            (notProvided "options.bolt.containerId"))
               end
             else ret tt) ;;;
            call store_getState
        else
          client <- await (loadBoltClient None None None) ;;
          assign (set_boltClient (Some client)) ;;;
          call store_getState
    | None =>
        client <- await (loadBoltClient None None None) ;;
        assign (set_boltClient (Some client)) ;;;
        call store_getState
    end.

Definition deinitialize : M InternalCheckoutSelectors :=
  assign (set_boltClient None) ;;;
  assign (set_boltEmbedded None) ;;;
  call store_getState.

Definition finalize : M InternalCheckoutSelectors :=
  throw OrderFinalizationNotRequiredError.

(** 'Fraud Protection Only' *)
Definition _executeWithBoltClient (payload : OrderRequestBody)
  (options : option PaymentRequestOptions) : M InternalCheckoutSelectors :=
  boltClient <- _getBoltClient ;;
  match payment payload with
  | None => throw (PaymentArgumentInvalidError (Some ["payment"%string]))
  | Some payment =>
      await (store_dispatch (submitOrder (order payload) options)) ;;;
      state0 <- call store_getState ;;
      checkout <- settle (getCheckoutOrThrow state0) ;;
      match isStoreCreditApplied checkout with
      | Some useStoreCredit =>
          await (store_dispatch (applyStoreCredit useStoreCredit)) ;;; ret tt
      | None => ret tt
      end ;;;
      state <- await (store_dispatch
                        (loadPaymentMethod (payment_methodId payment) options)) ;;
      match getPaymentMethod state (payment_methodId payment) with
      | None => throw (MissingDataError MissingPaymentMethod)
      | Some paymentMethod =>
          match clientToken paymentMethod with
          | Some (c :: r) =>
              let orderToken := c :: r in
              callback <- await (boltClient_configure_open boltClient orderToken) ;;
              transaction <-
                match callback with
                | success transaction =>
                    call onSuccess_callback ;;; ret transaction
                | close => throw PaymentMethodCancelledError
                end ;;
              shouldSave <-
                match paymentData payment with
                | Some instrument => ret (shouldSaveInstrument instrument)
                | None => throw TypeError
                end ;;
              let paymentPayload :=
                {| submit_methodId := payment_methodId payment;
                   submit_paymentData :=
                     NonceData (reference transaction) shouldSave |} in
              await (store_dispatch (submitPayment paymentPayload))
          | _ => throw (MissingDataError MissingPaymentMethod)
          end
      end
  end.

(** 'Embed One Click' *)
Definition _executeWithBoltEmbedded (payload : OrderRequestBody)
  (options : option PaymentRequestOptions) : M InternalCheckoutSelectors :=
  match payment payload with
  | None => throw (PaymentArgumentInvalidError (Some ["payment"%string]))
  | Some payment =>
      s <- this ;;
      tokenizeResult <-
        match _embeddedField s with
        | Some field => await (embeddedField_tokenize field)
        | None => ret None
        end ;;
      match tokenizeResult with
      | None => throw PaymentMethodInvalidError
      | Some (TokenizeError e) => throw e
      | Some (Tokenized tokenizeResult) =>
          settle (_validateTokenizeResult tokenizeResult) ;;;
          await (store_dispatch (submitOrder (order payload) options)) ;;;
          let paymentPayload :=
            {| submit_methodId := payment_methodId payment;
               submit_paymentData :=
                 FormattedPayload
                   {| cc_token := token tokenizeResult;
                      last_four_digits :=
                        unaryPlus (Some (last4 tokenizeResult));
                      iin := unaryPlus (Some (bin tokenizeResult));
                      expiration_month :=
                        unaryPlus (nth_error
                          (split hyphen (expiration tokenizeResult)) 1);
                      expiration_year :=
                        unaryPlus (nth_error
                          (split hyphen (expiration tokenizeResult)) 0) |}
                   {| create_account := false;
                      embedded_checkout := true |} |} in
          await (store_dispatch (submitPayment paymentPayload))
      end
  end.

(** 'Full Checkout with Fraud Protection' *)
Definition _executeWithBoltFullCheckout (payload : OrderRequestBody)
  (options : option PaymentRequestOptions) : M InternalCheckoutSelectors :=
  boltClient <- _getBoltClient ;;
  match payment payload with
  | None => throw (PaymentArgumentInvalidError (Some ["payment"%string]))
  | Some payment =>
      if negb (truthy (payment_methodId payment)) then
        throw (MissingDataError MissingPaymentMethod)
      else
        match paymentData payment with
        | None => throw (MissingDataError MissingPayment)
        | Some instrument =>
            await (store_dispatch (submitOrder (order payload) options)) ;;;
            transactionReference <-
              await (boltClient_getTransactionReference boltClient) ;;
            match transactionReference with
            | Some (c :: r) =>
                await (store_dispatch (submitPayment
                  {| submit_methodId := payment_methodId payment;
                     submit_paymentData :=
                       InstrumentWithNonce instrument (c :: r) |}))
            | _ => throw PaymentMethodInvalidError
            end
        end
  end.

Definition execute (payload : OrderRequestBody)
  (options : option PaymentRequestOptions) : M InternalCheckoutSelectors :=
  s <- this ;;
  if _useBoltClient s then _executeWithBoltClient payload options
  else if _useBoltEmbedded s then _executeWithBoltEmbedded payload options
  else _executeWithBoltFullCheckout payload options.

End Strategy.

Arguments Ret {X A} a.
Arguments Do {X A} c k.

(** ** The shipping-address fixture *)

(** Modelled from the spec: [InternalAddress] is declared in [../address],
    which is not among the sources; the record has the fields the fixture
    gives.  The type of a custom field is left open: the fixture has none. *)
Record InternalAddress (CustomField : Type) : Type := {
  id : jsstring;
  firstName : jsstring;
  lastName : jsstring;
  company : jsstring;
  addressLine1 : jsstring;
  addressLine2 : jsstring;
  city : jsstring;
  province : jsstring;
  provinceCode : jsstring;
  postCode : jsstring;
  country : jsstring;
  countryCode : jsstring;
  phone : jsstring;
  customFields : list CustomField
}.

Arguments id {CustomField} i.
Arguments firstName {CustomField} i.
Arguments lastName {CustomField} i.
Arguments company {CustomField} i.
Arguments addressLine1 {CustomField} i.
Arguments addressLine2 {CustomField} i.
Arguments city {CustomField} i.
Arguments province {CustomField} i.
Arguments provinceCode {CustomField} i.
Arguments postCode {CustomField} i.
Arguments country {CustomField} i.
Arguments countryCode {CustomField} i.
Arguments phone {CustomField} i.
Arguments customFields {CustomField} i.

Definition getShippingAddress {CustomField : Type} (_ : unit)
  : InternalAddress CustomField :=
  {| id := lit "55c96cda6f04c";
     firstName := lit "Test";
     lastName := lit "Tester";
     company := lit "Bigcommerce";
     addressLine1 := lit "12345 Testing Way";
     addressLine2 := lit "";
     city := lit "Some City";
     province := lit "California";
     provinceCode := lit "CA";
     postCode := lit "95555";
     country := lit "United States";
     countryCode := lit "US";
     phone := lit "555-555-5555";
     customFields := [] |}.

(** The string fields of an address other than [addressLine2]. *)
Definition requiredStrings {CustomField : Type}
  (a : InternalAddress CustomField) : list jsstring :=
  [id a; firstName a; lastName a; company a; addressLine1 a; city a;
   province a; provinceCode a; postCode a; country a; countryCode a; phone a].

(** ** Notions of the specification *)

(** The decimal digits. *)
Definition isDecimalDigit (c : code_unit) : bool :=
  (48 <=? c) && (c <=? 57).

(** A value parses as a valid number when converting it does not give
    NaN. *)
Definition parsesAsNumber (v : option jsstring) : Prop :=
  unaryPlus v <> NaN.

(** A tokenize result is valid when its token is non-empty and its last four
    digits, bank identifier number, expiration month and expiration year all
    parse as valid numbers, the month and the year being the parts at index 1
    and 0 of the expiration split on the hyphen. *)
Definition validTokenizeResult (r : BoltEmbeddedTokenize) : Prop :=
  token r <> []
  /\ parsesAsNumber (Some (last4 r))
  /\ parsesAsNumber (Some (bin r))
  /\ parsesAsNumber (nth_error (split hyphen (expiration r)) 1)
  /\ parsesAsNumber (nth_error (split hyphen (expiration r)) 0).

(** The three modes [execute] tells apart. *)
Inductive Mode : Type :=
| BoltClientOnly
| BoltEmbeddedMode
| FullCheckout.

Definition modeOf {X : ExternalTypes} (s : BoltPaymentStrategy) : Mode :=
  if _useBoltClient s then BoltClientOnly
  else if _useBoltEmbedded s then BoltEmbeddedMode
  else FullCheckout.



(** [options.bolt?.useBigCommerceCheckout] *)
Definition requestsBigCommerceCheckout (options : PaymentInitializeOptions)
  : bool :=
  match bolt options with
  | Some b => useBigCommerceCheckout b
  | None => false
  end.

(** [embeddedOneClickEnabled] of a payment method in a store state (falsy
    when the method or its initialization data is absent). *)
Definition oneClickEnabled {X : ExternalTypes}
  (state : InternalCheckoutSelectors) (id : option jsstring) : bool :=
  match getPaymentMethod state id with
  | Some pm =>
      match initializationData pm with
      | Some d => embeddedOneClickEnabled d
      | None => false
      end
  | None => false
  end.

(** The fields after [deinitialize]. *)
Definition deinitialized {X : ExternalTypes} (s : BoltPaymentStrategy)
  : BoltPaymentStrategy :=
  set_boltEmbedded None (set_boltClient None s).

(** Projections of a run. *)
Definition resultOf {A W L : Type} (r : A * W * L) : A := fst (fst r).
Definition worldOf {A W L : Type} (r : A * W * L) : W := snd (fst r).
Definition callsOf {A W L : Type} (r : A * W * L) : L := snd r.

(** The outcome of a run of a method, and the strategy's fields after it. *)
Definition outcomeOf {A S W L : Type} (r : outcome A * S * W * L) : outcome A :=
  fst (resultOf r).
Definition fieldsAfter {A S W L : Type} (r : outcome A * S * W * L) : S :=
  snd (resultOf r).

(** ** A sample environment

    Concrete collaborators, to run the methods on explicit inputs. *)

Definition sampleTypes : ExternalTypes :=
  {| PaymentRequestOptions := unit;
     OrderFields := unit;
     PaymentInstrument := option bool;
     shouldSaveInstrument := fun i => i;
     DeveloperConfig := unit;
     BoltCheckout := nat;
     BoltEmbedded := nat;
     BoltEmbededField := nat |}.

Definition sampleTokenize : BoltEmbeddedTokenize :=
  {| token := lit "tok_1";
     last4 := lit "4242";
     bin := lit "411111";
     expiration := lit "2025-09" |}.

(** A store that knows the payment method [bolt], with the given
    [embeddedOneClickEnabled]. *)
Definition sampleState (oneClick : bool)
  : @InternalCheckoutSelectors sampleTypes :=
  {| getPaymentMethod := fun id =>
       if jsstring_eqb (match id with Some s => s | None => [] end) (lit "bolt")
       then Some {| initializationData :=
                      Some {| publishableKey := Some (lit "pk_test");
                              developerConfig := None;
                              embeddedOneClickEnabled := oneClick |};
                    config := Some {| testMode := Some true |};
                    clientToken := Some (lit "order_token") |}
       else None;
     getCheckoutOrThrow := Resolved {| isStoreCreditApplied := None |} |}.

(** Collaborators that always succeed; the environment has no state. *)
Definition sampleHandler (oneClick : bool) : @Handler sampleTypes unit :=
  fun c w =>
    (match c return @Resp sampleTypes c with
     | store_getState => sampleState oneClick
     | store_dispatch _ => Resolved (sampleState oneClick)
     | loadBoltClient _ _ _ => Resolved 1%nat
     | loadBoltEmbedded _ _ _ => Resolved 2%nat
     | boltEmbedded_create _ _ => Resolved 3%nat
     | embeddedField_mount _ _ => Resolved tt
     | embeddedField_tokenize _ => Resolved (Some (Tokenized sampleTokenize))
     | boltClient_configure_open _ _ =>
         Resolved (success {| reference := lit "ref_1" |})
     | onSuccess_callback => tt
     | boltClient_getTransactionReference _ => Resolved (Some (lit "ref_1"))
     end, w).

(** The same collaborators, with a shopper who closes the Bolt window. *)
Definition closingHandler : @Handler sampleTypes unit :=
  fun c w =>
    match c return @Resp sampleTypes c * unit with
    | boltClient_configure_open _ _ => (Resolved close, w)
    | c0 => sampleHandler false c0 w
    end.

(** The same collaborators, with a field whose tokenization resolves to
    nothing. *)
Definition emptyTokenizeHandler : @Handler sampleTypes unit :=
  fun c w =>
    match c return @Resp sampleTypes c * unit with
    | embeddedField_tokenize _ => (Resolved None, w)
    | c0 => sampleHandler true c0 w
    end.

(** A store whose checkout says that store credit is applied. *)
Definition creditState : @InternalCheckoutSelectors sampleTypes :=
  {| getPaymentMethod := getPaymentMethod (sampleState false);
     getCheckoutOrThrow := Resolved {| isStoreCreditApplied := Some true |} |}.

Definition creditHandler : @Handler sampleTypes unit :=
  fun c w =>
    match c return @Resp sampleTypes c * unit with
    | store_getState => (creditState, w)
    | c0 => sampleHandler false c0 w
    end.

(** Requests whose payment lacks its method or its data. *)
Definition payloadWithoutMethod : @OrderRequestBody sampleTypes :=
  @Build_OrderRequestBody sampleTypes
    (Some (@Build_OrderPaymentRequestBody sampleTypes None (Some (Some true))))
    tt.

Definition payloadWithoutData : @OrderRequestBody sampleTypes :=
  @Build_OrderRequestBody sampleTypes
    (Some (@Build_OrderPaymentRequestBody sampleTypes (Some (lit "bolt")) None))
    tt.

(** The payment method [bolt] of the sample store. *)
Definition samplePaymentMethod (oneClick : bool)
  : @PaymentMethod sampleTypes :=
  {| initializationData :=
       Some {| publishableKey := Some (lit "pk_test");
               developerConfig := None;
               embeddedOneClickEnabled := oneClick |};
     config := Some {| testMode := Some true |};
     clientToken := Some (lit "order_token") |}.

Definition sampleOptions (useBigCommerce : bool) (container : option jsstring)
  : PaymentInitializeOptions :=
  {| methodId := Some (lit "bolt");
     bolt := Some {| useBigCommerceCheckout := useBigCommerce;
                     containerId := container |} |}.

Definition samplePayment : @OrderPaymentRequestBody sampleTypes :=
  @Build_OrderPaymentRequestBody sampleTypes
    (Some (lit "bolt")) (Some (Some true)).

Definition payloadWithPayment : @OrderRequestBody sampleTypes :=
  @Build_OrderRequestBody sampleTypes (Some samplePayment) tt.

Definition payloadWithoutPayment : @OrderRequestBody sampleTypes :=
  @Build_OrderRequestBody sampleTypes None tt.

(** A strategy initialised for the platform checkout without one-click
    (BoltClientOnly), and then deinitialised. *)
Definition clientOnlyStrategy : @BoltPaymentStrategy sampleTypes :=
  fieldsAfter (run (sampleHandler false)
                   (initialize (sampleOptions true None) newStrategy) tt).

Definition clientOnlyDeinitialized : @BoltPaymentStrategy sampleTypes :=
  fieldsAfter (run (sampleHandler false) (deinitialize clientOnlyStrategy) tt).

(** A strategy initialised for one-click (BoltEmbedded). *)
Definition embeddedStrategy : @BoltPaymentStrategy sampleTypes :=
  fieldsAfter (run (sampleHandler true)
                   (initialize (sampleOptions true (Some (lit "bolt-embedded")))
                               newStrategy) tt).

(** A strategy whose one-click initialisation failed for want of a container,
    and which was then deinitialised. *)
Definition embeddedFailedStrategy : @BoltPaymentStrategy sampleTypes :=
  fieldsAfter (run (sampleHandler true)
                   (initialize (sampleOptions true None) newStrategy) tt).

Definition embeddedFailedDeinitialized : @BoltPaymentStrategy sampleTypes :=
  fieldsAfter (run (sampleHandler true)
                   (deinitialize embeddedFailedStrategy) tt).

(** A strategy initialised without the platform checkout (FullCheckout). *)
Definition fullCheckoutStrategy : @BoltPaymentStrategy sampleTypes :=
  fieldsAfter (run (sampleHandler false)
                   (initialize (sampleOptions false None) newStrategy) tt).

(** [post m s Q]: whatever the collaborators answer, the outcome of [m]
    from the fields [s] and the fields after it satisfy [Q], on success and
    on failure alike. *)
Definition post {X : ExternalTypes} {A : Type} (m : M A)
  (s : BoltPaymentStrategy)
  (Q : outcome A -> BoltPaymentStrategy -> Prop) : Prop :=
  always (fun r => Q (fst r) (snd r)) (m s).


(** ** Runs with their answers *)

(** A call together with what the collaborator answered. *)
Inductive Event {X : ExternalTypes} : Type :=
| Ev (c : Call) (r : Resp c).

Definition callOf {X : ExternalTypes} (e : Event) : Call :=
  match e with Ev c _ => c end.

(** The calls of a run with their answers, in order. *)
Fixpoint runEvents {X : ExternalTypes} {W A : Type} (h : Handler W)
  (p : Prog A) (w : W) : list Event :=
  match p with
  | Ret _ => []
  | Do c k => let (r, w1) := h c w in Ev c r :: runEvents h (k r) w1
  end.

(** [holds P p]: whatever the collaborators answer, the calls made with
    their answers and the result satisfy [P]. *)
Fixpoint holds {X : ExternalTypes} {A : Type}
  (P : list Event -> A -> Prop) (p : Prog A) : Prop :=
  match p with
  | Ret a => P [] a
  | Do c k => forall r, holds (fun l a => P (Ev c r :: l) a) (k r)
  end.

(** [postE m s Q]: [Q] holds of the answered calls, the outcome and the
    fields after [m], run from the fields [s]. *)
Definition postE {X : ExternalTypes} {A : Type} (m : M A)
  (s : BoltPaymentStrategy)
  (Q : list Event -> outcome A -> BoltPaymentStrategy -> Prop) : Prop :=
  holds (fun l r => Q l (fst r) (snd r)) (m s).

(** The error with which a call was answered, if it threw or rejected. *)
Definition rejectionOf {X : ExternalTypes} (e : Event) : option Error :=
  let err (A : Type) (o : outcome A) : option Error :=
    match o with Rejected e => Some e | Resolved _ => None end in
  match e with
  | Ev c r =>
      match c return Resp c -> option Error with
      | store_getState => fun _ => None
      | store_dispatch _ => err _
      | loadBoltClient _ _ _ => err _
      | loadBoltEmbedded _ _ _ => err _
      | boltEmbedded_create _ _ => err _
      | embeddedField_mount _ _ => err _
      | embeddedField_tokenize _ => err _
      | boltClient_configure_open _ _ => err _
      | onSuccess_callback => fun _ => None
      | boltClient_getTransactionReference _ => err _
      end r
  end.

(** No call after a failed one, and the failure of the last call is the
    outcome. *)
Fixpoint propagated {X : ExternalTypes} {A : Type} (l : list Event)
  (o : outcome A) : Prop :=
  match l with
  | [] => True
  | e :: rest =>
      match rejectionOf e with
      | Some err => rest = [] /\ o = Rejected err
      | None => propagated rest o
      end
  end.

(** The orders and the payments submitted, among some calls. *)
Definition isOrderSubmission {X : ExternalTypes} (c : Call) : bool :=
  match c with
  | store_dispatch (submitOrder _ _) => true
  | _ => false
  end.

Definition paymentOf {X : ExternalTypes} (c : Call) : option Payment :=
  match c with
  | store_dispatch (submitPayment p) => Some p
  | _ => None
  end.

Definition isPaymentSubmission {X : ExternalTypes} (c : Call) : bool :=
  match paymentOf c with Some _ => true | None => false end.

(** [ordered seen l]: in [l] a payment is submitted only as the last call
    and after an order, and no second order is submitted; [seen] says
    whether an order was submitted before [l]. *)
Fixpoint ordered {X : ExternalTypes} (seen : bool) (l : list Call) : bool :=
  match l with
  | [] => true
  | c :: r =>
      if isPaymentSubmission c then seen && isEmpty r
      else if isOrderSubmission c then negb seen && ordered true r
      else ordered seen r
  end.

(** The payments submitted in a run. *)
Fixpoint paymentsOf {X : ExternalTypes} (l : list Event) : list Payment :=
  match l with
  | [] => []
  | e :: r =>
      match paymentOf (callOf e) with
      | Some p => p :: paymentsOf r
      | None => paymentsOf r
      end
  end.

(** What the Bolt window answered, each time it was opened, with the client
    and the order token it was opened with. *)
Fixpoint boltAnswersOf {X : ExternalTypes} (l : list Event)
  : list (BoltCheckout * jsstring * outcome BoltCallback) :=
  match l with
  | [] => []
  | Ev c r :: rest =>
      match c return Resp c
                     -> list (BoltCheckout * jsstring * outcome BoltCallback)
      with
      | boltClient_configure_open client orderToken =>
          fun a => (client, orderToken, a) :: boltAnswersOf rest
      | _ => fun _ => boltAnswersOf rest
      end r
  end.

(** The store states read with [getState]. *)
Fixpoint statesReadOf {X : ExternalTypes} (l : list Event)
  : list InternalCheckoutSelectors :=
  match l with
  | [] => []
  | Ev c r :: rest =>
      match c return Resp c -> list InternalCheckoutSelectors with
      | store_getState => fun st => st :: statesReadOf rest
      | _ => fun _ => statesReadOf rest
      end r
  end.

(** The store credit applications dispatched. *)
Fixpoint storeCreditsOf {X : ExternalTypes} (l : list Event) : list bool :=
  match l with
  | [] => []
  | e :: rest =>
      match callOf e with
      | store_dispatch (applyStoreCredit b) => b :: storeCreditsOf rest
      | _ => storeCreditsOf rest
      end
  end.

(** The answers to the reloading of a payment method. *)
Fixpoint methodLoadsOf {X : ExternalTypes} (l : list Event)
  : list (option jsstring * outcome InternalCheckoutSelectors) :=
  match l with
  | [] => []
  | Ev c r :: rest =>
      match c return Resp c
                     -> list (option jsstring
                              * outcome InternalCheckoutSelectors)
      with
      | store_dispatch (loadPaymentMethod id _) =>
          fun a => (id, a) :: methodLoadsOf rest
      | _ => fun _ => methodLoadsOf rest
      end r
  end.


(** Why an answer of [tokenize()] stops the embedded path, if it does. *)
Definition tokenizeFailure (a : outcome (option TokenizeValue))
  : option Error :=
  match a with
  | Rejected e => Some e
  | Resolved None => Some PaymentMethodInvalidError
  | Resolved (Some (TokenizeError e)) => Some e
  | Resolved (Some (Tokenized r)) =>
      match _validateTokenizeResult r with
      | Rejected e => Some e
      | Resolved _ => None
      end
  end.

(** What [initialize] takes from a payment method: the three arguments of
    the script loader. *)
Definition initializationKey {X : ExternalTypes} (pm : PaymentMethod)
  : option jsstring :=
  match initializationData pm with
  | Some d => publishableKey d
  | None => None
  end.

Definition developerConfigOf {X : ExternalTypes} (pm : PaymentMethod)
  : option DeveloperConfig :=
  match initializationData pm with
  | Some d => developerConfig d
  | None => None
  end.

Definition testModeOf {X : ExternalTypes} (pm : PaymentMethod) : option bool :=
  match config pm with
  | Some c => testMode c
  | None => None
  end.

(** ** Properties *)

(** *** The conversions on explicit strings *)

Example toNumber_trims_white_space :
  StringToNumber (lit " 4242 ") = Finite false 4242 0.
Proof. reflexivity. Qed.

Example toNumber_leading_zero : StringToNumber (lit "09") = Finite false 9 0.
Proof. reflexivity. Qed.

Example toNumber_empty_is_zero : StringToNumber (lit "") = Finite false 0 0.
Proof. reflexivity. Qed.

Example toNumber_hexadecimal : StringToNumber (lit "0x1F") = Finite false 31 0.
Proof. reflexivity. Qed.

Example toNumber_signed_hexadecimal : StringToNumber (lit "-0x10") = NaN.
Proof. reflexivity. Qed.

Example toNumber_binary_bad_digit : StringToNumber (lit "0b102") = NaN.
Proof. reflexivity. Qed.

Example toNumber_prefix_alone : StringToNumber (lit "0x") = NaN.
Proof. reflexivity. Qed.

Example toNumber_exponent : StringToNumber (lit "-1.5e3") = Finite true 15 2.
Proof. reflexivity. Qed.

Example toNumber_exponent_without_digits : StringToNumber (lit "1e") = NaN.
Proof. reflexivity. Qed.

Example toNumber_trailing_dot : StringToNumber (lit "5.") = Finite false 5 0.
Proof. reflexivity. Qed.

Example toNumber_leading_dot :
  StringToNumber (lit ".5") = Finite false 5 (-1).
Proof. reflexivity. Qed.

Example toNumber_dot_alone : StringToNumber (lit ".") = NaN.
Proof. reflexivity. Qed.

Example toNumber_infinity : StringToNumber (lit "-Infinity") = Infinity true.
Proof. reflexivity. Qed.

Example toNumber_trailing_letters : StringToNumber (lit "12ab") = NaN.
Proof. reflexivity. Qed.

Example toNumber_inner_space : StringToNumber (lit "1 2") = NaN.
Proof. reflexivity. Qed.

Example split_expiration :
  split hyphen (lit "2025-09") = [lit "2025"; lit "09"].
Proof. reflexivity. Qed.

Example split_empty : split hyphen (lit "") = [lit ""].
Proof. reflexivity. Qed.

Example split_keeps_empty_parts :
  split hyphen (lit "a--b-") = [lit "a"; lit ""; lit "b"; lit ""].
Proof. reflexivity. Qed.

Section Properties.

Context {X : ExternalTypes}.




(** A program that is a result makes no call and leaves the environment as
    it was. *)
Lemma run_Ret (A W : Type) (a : A) (h : Handler W) (w : W) :
  run h (Ret a) w = (a, w, []).
Proof. reflexivity. Qed.

(** The rules of [post], one per construct of the monad. *)











(** *** Validation of a tokenize result *)

Lemma isNaN_parses (v : option jsstring) :
  isNaN (unaryPlus v) = false <-> parsesAsNumber v.
Proof.
  unfold parsesAsNumber. destruct (unaryPlus v); simpl; split;
    intros H; try reflexivity; try discriminate; congruence.
Qed.

Lemma truthy_nonempty (s : jsstring) : truthy (Some s) = true <-> s <> [].
Proof.
  destruct s; simpl; split; intros H; try reflexivity; try discriminate;
    congruence.
Qed.

Lemma validate_resolves_iff (r : BoltEmbeddedTokenize) :
  _validateTokenizeResult r = Resolved tt <-> validTokenizeResult r.
Proof.
  unfold _validateTokenizeResult, validTokenizeResult.
  change (lit "" ++ expiration r) with (expiration r).
  rewrite <- !isNaN_parses, <- truthy_nonempty.
  destruct (truthy (Some (token r)));
    destruct (isNaN (unaryPlus (Some (last4 r))));
    destruct (isNaN (unaryPlus (Some (bin r))));
    destruct (isNaN (unaryPlus (nth_error (split hyphen (expiration r)) 1)));
    destruct (isNaN (unaryPlus (nth_error (split hyphen (expiration r)) 0)));
    simpl; intuition congruence.
Qed.

Lemma validate_rejects_only (r : BoltEmbeddedTokenize) (e : Error) :
  _validateTokenizeResult r = Rejected e ->
  e = PaymentArgumentInvalidError None.
Proof.
  unfold _validateTokenizeResult.
  match goal with |- (if ?b then _ else _) = _ -> _ => destruct b end;
    intros H; [ injection H as <-; reflexivity | discriminate ].
Qed.

Lemma split_cons (sep : code_unit) (s : jsstring) :
  exists first rest, split sep s = first :: rest.
Proof.
  induction s as [| c r IH]; simpl.
  - now exists [], [].
  - destruct (c =? sep); [ now exists [], (split sep r) | ].
    destruct IH as (first & rest & ->). now exists (c :: first), rest.
Qed.

(** A string without the separator is its only part. *)
Lemma split_without_separator (sep : code_unit) (s : jsstring) :
  ~ In sep s -> split sep s = [s].
Proof.
  induction s as [| c r IH]; simpl; intros H.
  - reflexivity.
  - destruct (N.eqb_spec c sep) as [-> | _].
    + exfalso. apply H. now left.
    + rewrite IH; [ reflexivity | ]. intros Hin. apply H. now right.
Qed.

(** The parts of a string, joined by the separator, give the string back. *)
Lemma split_join (sep : code_unit) (s : jsstring) :
  match split sep s with
  | [] => False
  | first :: rest =>
      first ++ flat_map (fun part => sep :: part) rest = s
  end.
Proof.
  induction s as [| c r IH]; simpl.
  - reflexivity.
  - destruct (N.eqb_spec c sep) as [-> | _].
    + destruct (split sep r) as [| first rest]; [ contradiction | ].
      simpl. now rewrite IH.
    + destruct (split sep r) as [| first rest]; [ contradiction | ].
      simpl. now rewrite IH.
Qed.

(** An empty token is rejected whatever the other fields hold. *)
Lemma validate_rejects_empty_token (r : BoltEmbeddedTokenize) :
  token r = [] ->
  _validateTokenizeResult r = Rejected (PaymentArgumentInvalidError None).
Proof.
  intros H. unfold _validateTokenizeResult. rewrite H. reflexivity.
Qed.

(** An expiration without a hyphen has no month, and is rejected. *)
Lemma validate_rejects_expiration_without_hyphen (r : BoltEmbeddedTokenize) :
  ~ In hyphen (expiration r) ->
  _validateTokenizeResult r = Rejected (PaymentArgumentInvalidError None).
Proof.
  intros H. unfold _validateTokenizeResult.
  change (lit "" ++ expiration r) with (expiration r).
  rewrite (split_without_separator _ _ H). simpl nth_error. simpl unaryPlus.
  simpl isNaN. rewrite !orb_true_r. reflexivity.
Qed.

(** *** Strings of decimal digits *)

Lemma decimal_digit_cases (c : code_unit) :
  isDecimalDigit c = true -> In c [48; 49; 50; 51; 52; 53; 54; 55; 56; 57].
Proof.
  unfold isDecimalDigit. rewrite andb_true_iff, !N.leb_le. simpl. lia.
Qed.

(** The ten cases of a decimal digit. *)
Ltac digit_cases c H :=
  let Hc := fresh in
  pose proof (decimal_digit_cases c H) as Hc; simpl in Hc;
  repeat (destruct Hc as [Hc | Hc]; [ subst c | ]); [ .. | contradiction ].

Lemma digitValue_decimal (c : code_unit) :
  isDecimalDigit c = true -> digitValue 10 c = Some (c - 48).
Proof. intros H. digit_cases c H; reflexivity. Qed.

Lemma digit_not_white_space (c : code_unit) :
  isDecimalDigit c = true -> isStrWhiteSpaceChar c = false.
Proof. intros H. digit_cases c H; reflexivity. Qed.

Lemma spanDigits_all (s : jsstring) :
  forallb isDecimalDigit s = true ->
  spanDigits 10 s = (map (fun c => c - 48) s, []).
Proof.
  induction s as [| c r IH]; simpl; intros H.
  - reflexivity.
  - apply andb_true_iff in H. destruct H as [Hc Hr].
    rewrite (digitValue_decimal c Hc), (IH Hr). reflexivity.
Qed.

Lemma dropWhile_keep (A : Type) (p : A -> bool) (l : list A) :
  match l with [] => True | x :: _ => p x = false end -> dropWhile p l = l.
Proof. destruct l as [| x r]; simpl; intros H; [ | rewrite H ]; reflexivity. Qed.

Lemma trimWhiteSpace_digits (s : jsstring) :
  forallb isDecimalDigit s = true -> trimWhiteSpace s = s.
Proof.
  intros H. unfold trimWhiteSpace.
  assert (Hall : forall c, In c s -> isStrWhiteSpaceChar c = false).
  { intros c Hc. apply digit_not_white_space.
    rewrite forallb_forall in H. now apply H. }
  rewrite (dropWhile_keep _ isStrWhiteSpaceChar s).
  - rewrite dropWhile_keep; [ apply rev_involutive | ].
    destruct (rev s) as [| x t] eqn:E; [ exact I | ].
    apply Hall. apply in_rev. rewrite E. now left.
  - destruct s as [| x t]; [ exact I | ]. apply Hall. now left.
Qed.

Lemma parseNonDecimal_digits (s : jsstring) :
  forallb isDecimalDigit s = true -> parseNonDecimal s = None.
Proof.
  destruct s as [| c r]; [ reflexivity | ]. simpl. intros H.
  apply andb_true_iff in H. destruct H as [Hc Hr].
  digit_cases c Hc; try reflexivity.
  destruct r as [| p r]; [ reflexivity | ].
  simpl in Hr. apply andb_true_iff in Hr. destruct Hr as [Hp _].
  digit_cases p Hp; reflexivity.
Qed.

Lemma digits_not_infinity (c : code_unit) (r : jsstring) :
  isDecimalDigit c = true -> jsstring_eqb (c :: r) (lit "Infinity") = false.
Proof.
  intros H. change (lit "Infinity") with (73 :: lit "nfinity").
  cbn [jsstring_eqb]. digit_cases c H; reflexivity.
Qed.

Lemma parseUnsignedDecimal_digits (c : code_unit) (r : jsstring) :
  forallb isDecimalDigit (c :: r) = true ->
  parseUnsignedDecimal (c :: r)
  = Some (MDecimal (digitsValue 10 (map (fun c => c - 48) (c :: r))) 0).
Proof.
  intros H. unfold parseUnsignedDecimal.
  rewrite (spanDigits_all _ H).
  simpl in H. apply andb_true_iff in H. destruct H as [Hc _].
  rewrite (digits_not_infinity c r Hc).
  cbn [map isEmpty andb]. rewrite app_nil_r. reflexivity.
Qed.

Lemma parseDecimal_digits (c : code_unit) (r : jsstring) :
  forallb isDecimalDigit (c :: r) = true ->
  parseDecimal (c :: r)
  = Finite false (digitsValue 10 (map (fun c => c - 48) (c :: r))) 0.
Proof.
  intros H. pose proof (parseUnsignedDecimal_digits c r H) as Hu.
  simpl in H. apply andb_true_iff in H. destruct H as [Hc _].
  digit_cases c Hc; cbv beta iota delta [parseDecimal]; rewrite Hu;
    reflexivity.
Qed.

(** A string of decimal digits converts to the number it writes. *)
Lemma digits_toNumber (s : jsstring) :
  forallb isDecimalDigit s = true ->
  StringToNumber s = Finite false (digitsValue 10 (map (fun c => c - 48) s)) 0.
Proof.
  intros H. unfold StringToNumber.
  rewrite (trimWhiteSpace_digits s H).
  destruct s as [| c r]; [ reflexivity | ].
  cbn [isEmpty]. rewrite (parseNonDecimal_digits _ H).
  now apply parseDecimal_digits.
Qed.

Lemma split_at_separator (sep : code_unit) (y m : jsstring) :
  ~ In sep y -> split sep (y ++ sep :: m) = y :: split sep m.
Proof.
  induction y as [| c r IH]; simpl; intros H.
  - now rewrite N.eqb_refl.
  - destruct (N.eqb_spec c sep) as [-> | _].
    + exfalso. apply H. now left.
    + rewrite IH; [ reflexivity | ]. intros Hin. apply H. now right.
Qed.

Lemma digits_without_hyphen (s : jsstring) :
  forallb isDecimalDigit s = true -> ~ In hyphen s.
Proof.
  intros H Hin. rewrite forallb_forall in H. specialize (H _ Hin).
  discriminate H.
Qed.

Lemma digits_parse (s : jsstring) :
  forallb isDecimalDigit s = true -> parsesAsNumber (Some s).
Proof.
  intros H. unfold parsesAsNumber, unaryPlus.
  rewrite (digits_toNumber s H). discriminate.
Qed.


(** C2.  [_validateTokenizeResult] raises the argument-invalid error without
    a field list exactly on the invalid tokenize results, and returns
    normally on the valid ones. *)
Theorem validateTokenizeResult_rejects_iff_invalid :
  forall r : BoltEmbeddedTokenize,
    (_validateTokenizeResult r = Rejected (PaymentArgumentInvalidError None)
     <-> ~ validTokenizeResult r)
    /\ (validTokenizeResult r -> _validateTokenizeResult r = Resolved tt).
Proof.
  intros r. split; [ split | ].
  - intros H V. apply validate_resolves_iff in V. congruence.
  - intros NV. destruct (_validateTokenizeResult r) as [[] | e] eqn:E.
    + apply validate_resolves_iff in E. contradiction.
    + apply validate_rejects_only in E. now subst.
  - apply validate_resolves_iff.
Qed.

(** *** Errors raised before any call *)

(** C5.  Without a [methodId], [initialize] fails with the invalid-argument
    error and has done nothing: it is a program that makes no call, so in
    every environment no script is loaded and the store is as it was, and
    the strategy's fields are the ones before. *)
Theorem initialize_without_methodId :
  forall (options : PaymentInitializeOptions) (s : BoltPaymentStrategy),
    methodId options = None ->
    initialize options s
      = Ret (Rejected (InvalidArgumentError (notProvided "options.methodId")), s)
    /\ forall (W : Type) (h : Handler W) (w : W),
         run h (initialize options s) w
           = (Rejected (InvalidArgumentError (notProvided "options.methodId")),
              s, w, []).
Proof.
  intros options s H.
  assert (E : initialize options s
              = Ret (Rejected (InvalidArgumentError
                                 (notProvided "options.methodId")), s)).
  { unfold initialize. rewrite H. reflexivity. }
  split; [ exact E | ].
  intros W h w. rewrite E. apply run_Ret.
Qed.

(** C7.  [finalize] fails with the order-finalization-not-required error from
    every state of the strategy, without a call and without touching the
    fields. *)
Theorem finalize_always_rejects :
  forall s : BoltPaymentStrategy,
    finalize s = Ret (Rejected OrderFinalizationNotRequiredError, s)
    /\ forall (W : Type) (h : Handler W) (w : W),
         run h (finalize s) w
           = (Rejected OrderFinalizationNotRequiredError, s, w, []).
Proof.
  intros s. split.
  - reflexivity.
  - intros W h w. unfold finalize, throw. apply run_Ret.
Qed.

(** With the platform checkout asked for and a payment method the store
    does not know, [initialize] reads the store state and fails with the
    missing-data error, before any script is loaded. *)
Lemma initialize_unknown_method (W : Type) (h : Handler W) (w : W)
  (options : PaymentInitializeOptions) (s : BoltPaymentStrategy) :
  truthy (methodId options) = true ->
  requestsBigCommerceCheckout options = true ->
  getPaymentMethod (fst (h store_getState w)) (methodId options) = None ->
  run h (initialize options s) w
  = (Rejected (MissingDataError MissingPaymentMethod), s,
     snd (h store_getState w), [store_getState]).
Proof.
  unfold requestsBigCommerceCheckout, initialize. intros Hid Hb Hpm.
  rewrite Hid. cbn [negb].
  destruct (bolt options) as [b |]; [ | discriminate ]. rewrite Hb.
  unfold bind at 1. unfold call at 1. cbn [pbind run].
  destruct (h store_getState w) as [state w1]. simpl in Hpm.
  rewrite Hpm. reflexivity.
Qed.

(** [deinitialize] reads the store state once, and cannot fail. *)
Lemma run_deinitialize (W : Type) (h : Handler W) (w : W)
  (s : BoltPaymentStrategy) :
  run h (deinitialize s) w
  = (Resolved (fst (h store_getState w)), deinitialized s,
     snd (h store_getState w), [store_getState]).
Proof.
  unfold deinitialize, bind, assign, call; simpl.
  destruct (h store_getState w) as [state w1]. reflexivity.
Qed.

(** [execute] goes by the mode. *)
Lemma execute_dispatch (payload : OrderRequestBody)
  (options : option PaymentRequestOptions) (s : BoltPaymentStrategy) :
  execute payload options s
  = match modeOf s with
    | BoltClientOnly => _executeWithBoltClient payload options s
    | BoltEmbeddedMode => _executeWithBoltEmbedded payload options s
    | FullCheckout => _executeWithBoltFullCheckout payload options s
    end.
Proof.
  unfold execute, modeOf, bind, this; simpl.
  destruct (_useBoltClient s), (_useBoltEmbedded s); reflexivity.
Qed.

Lemma getBoltClient_absent (A : Type) (k : BoltCheckout -> M A)
  (s : BoltPaymentStrategy) :
  _boltClient s = None ->
  bind _getBoltClient k s
  = Ret (Rejected (NotInitializedError PaymentNotInitialized), s).
Proof.
  intros H. unfold _getBoltClient. unfold bind, this, throw; simpl.
  rewrite H. reflexivity.
Qed.

Lemma getBoltClient_present (A : Type) (k : BoltCheckout -> M A)
  (s : BoltPaymentStrategy) (c : BoltCheckout) :
  _boltClient s = Some c ->
  bind _getBoltClient k s = k c s.
Proof.
  intros H. unfold _getBoltClient. unfold bind, this, ret; simpl.
  rewrite H. reflexivity.
Qed.



(** C9.  In the BoltClientOnly and FullCheckout modes the client handle is
    looked up before the payload is examined: without it [execute] fails
    with the not-initialized error, for every payload, with or without a
    [payment] field. *)
Theorem execute_without_client :
  forall (payload : OrderRequestBody) (options : option PaymentRequestOptions)
         (s : BoltPaymentStrategy),
    modeOf s = BoltClientOnly \/ modeOf s = FullCheckout ->
    _boltClient s = None ->
    execute payload options s
      = Ret (Rejected (NotInitializedError PaymentNotInitialized), s)
    /\ Rejected (NotInitializedError PaymentNotInitialized)
         <> @Rejected InternalCheckoutSelectors
              (PaymentArgumentInvalidError (Some ["payment"%string])).
Proof.
  intros payload options s Hm Hc. split; [ | discriminate ].
  rewrite execute_dispatch.
  destruct Hm as [Hm | Hm]; rewrite Hm.
  - unfold _executeWithBoltClient. now apply getBoltClient_absent.
  - unfold _executeWithBoltFullCheckout. now apply getBoltClient_absent.
Qed.

(** C10.  In the BoltEmbedded mode nothing checks that the embedded client
    or field was set up.  With the field handle absent the tokenization is
    skipped: after the check for [payment], and before any call (so before
    the order is submitted), [execute] fails with the payment-method-invalid
    error, which is not the not-initialized error.  [deinitialize] leads
    neither out of the mode nor to another field handle. *)
Theorem execute_embedded_without_field :
  forall (payload : OrderRequestBody) (options : option PaymentRequestOptions)
         (s : BoltPaymentStrategy),
    modeOf s = BoltEmbeddedMode ->
    _embeddedField s = None ->
    (payment payload = None ->
     execute payload options s
       = Ret (Rejected (PaymentArgumentInvalidError (Some ["payment"%string])), s))
    /\ (payment payload <> None ->
        execute payload options s = Ret (Rejected PaymentMethodInvalidError, s)
        /\ forall (W : Type) (h : Handler W) (w : W),
             callsOf (run h (execute payload options s) w) = [])
    /\ PaymentMethodInvalidError <> NotInitializedError PaymentNotInitialized
    /\ forall (W : Type) (h : Handler W) (w : W),
         modeOf (fieldsAfter (run h (deinitialize s) w)) = BoltEmbeddedMode
         /\ _embeddedField (fieldsAfter (run h (deinitialize s) w)) = None.
Proof.
  intros payload options s Hm Hf.
  assert (E : payment payload <> None ->
              execute payload options s
              = Ret (Rejected PaymentMethodInvalidError, s)).
  { intros Hp. rewrite execute_dispatch, Hm.
    unfold _executeWithBoltEmbedded.
    destruct (payment payload) as [p |]; [ | contradiction ].
    unfold bind, this, ret; simpl. rewrite Hf. reflexivity. }
  repeat split.
  - intros Hp. rewrite execute_dispatch, Hm.
    unfold _executeWithBoltEmbedded. rewrite Hp. reflexivity.
  - now apply E.
  - intros W h w. rewrite (E H). reflexivity.
  - discriminate.
  - rewrite run_deinitialize. exact Hm.
  - rewrite run_deinitialize. exact Hf.
Qed.

(** *** The mode flags *)










(** *** The embedded payment payload *)

(** C4.  In the BoltEmbedded mode, when the mounted field tokenizes to
    [{token: tok_1, last4: 4242, bin: 411111, expiration: 2025-09}] and the
    order is submitted, [execute] makes three calls: the tokenization, the
    order submission, and the submission of a payment whose card fields are
    the token, 4242, 411111, month 9 and year 2025, with [create_account]
    false and [embedded_checkout] true.  Its outcome is that of the payment
    submission. *)
Theorem execute_embedded_payload :
  forall (W : Type) (h : Handler W) (w w1 w2 : W)
         (payload : OrderRequestBody) (p : OrderPaymentRequestBody)
         (options : option PaymentRequestOptions) (s : BoltPaymentStrategy)
         (field : BoltEmbededField) (state : InternalCheckoutSelectors),
    modeOf s = BoltEmbeddedMode ->
    _embeddedField s = Some field ->
    payment payload = Some p ->
    h (embeddedField_tokenize field) w
      = (Resolved (Some (Tokenized sampleTokenize)), w1) ->
    h (store_dispatch (submitOrder (order payload) options)) w1
      = (Resolved state, w2) ->
    let paymentPayload :=
      {| submit_methodId := payment_methodId p;
         submit_paymentData :=
           FormattedPayload
             {| cc_token := lit "tok_1";
                last_four_digits := Finite false 4242 0;
                iin := Finite false 411111 0;
                expiration_month := Finite false 9 0;
                expiration_year := Finite false 2025 0 |}
             {| create_account := false; embedded_checkout := true |} |} in
    callsOf (run h (execute payload options s) w)
      = [embeddedField_tokenize field;
         store_dispatch (submitOrder (order payload) options);
         store_dispatch (submitPayment paymentPayload)]
    /\ outcomeOf (run h (execute payload options s) w)
       = fst (h (store_dispatch (submitPayment paymentPayload)) w2).
Proof.
  intros W h w w1 w2 payload p options s field state Hm Hf Hp Htok Hord
    paymentPayload.
  assert (E : run h (execute payload options s) w
              = (fst (h (store_dispatch (submitPayment paymentPayload)) w2), s,
                 snd (h (store_dispatch (submitPayment paymentPayload)) w2),
                 [embeddedField_tokenize field;
                  store_dispatch (submitOrder (order payload) options);
                  store_dispatch (submitPayment paymentPayload)])).
  { rewrite execute_dispatch, Hm. unfold _executeWithBoltEmbedded. rewrite Hp.
    unfold bind at 1. unfold this at 1. cbn [pbind]. rewrite Hf.
    unfold bind, call, settle, ret. cbn [pbind run]. rewrite Htok.
    cbn [pbind run].
    change (_validateTokenizeResult sampleTokenize) with (@Resolved unit tt).
    cbn [pbind run]. rewrite Hord. cbn [pbind run].
    change (unaryPlus (Some (last4 sampleTokenize)))
      with (Finite false 4242 0).
    change (unaryPlus (Some (bin sampleTokenize)))
      with (Finite false 411111 0).
    change (unaryPlus (nth_error (split hyphen (expiration sampleTokenize)) 1))
      with (Finite false 9 0).
    change (unaryPlus (nth_error (split hyphen (expiration sampleTokenize)) 0))
      with (Finite false 2025 0).
    change (token sampleTokenize) with (lit "tok_1").
    fold paymentPayload.
    destruct (h (store_dispatch (submitPayment paymentPayload)) w2)
      as [r3 w3].
    destruct r3 as [st | e]; reflexivity. }
  rewrite E. split; reflexivity.
Qed.

(** *** Deinitialization *)

(** C6.  [deinitialize] never fails; after it both client handles are absent
    and the embedded field handle is the one before; calling it again
    changes nothing. *)
Theorem deinitialize_clears_clients :
  forall (W : Type) (h : Handler W) (w : W) (s : BoltPaymentStrategy),
    let s1 := fieldsAfter (run h (deinitialize s) w) in
    isResolved (outcomeOf (run h (deinitialize s) w)) = true
    /\ _boltClient s1 = None
    /\ _boltEmbedded s1 = None
    /\ _embeddedField s1 = _embeddedField s
    /\ forall (h2 : Handler W) (w2 : W),
         isResolved (outcomeOf (run h2 (deinitialize s1) w2)) = true
         /\ fieldsAfter (run h2 (deinitialize s1) w2) = s1.
Proof.
  intros W h w s s1. subst s1. rewrite run_deinitialize.
  repeat split; intros; rewrite run_deinitialize; reflexivity.
Qed.

(** *** The shipping-address fixture *)

(** C8.  [getShippingAddress] returns the same record at every call; the
    record has every field, with the country code US, an empty second address
    line, no custom field, and every other string non-empty. *)
Theorem getShippingAddress_fixture :
  forall (CustomField : Type) (u v : unit),
    @getShippingAddress CustomField u = getShippingAddress v
    /\ countryCode (@getShippingAddress CustomField u) = lit "US"
    /\ addressLine2 (@getShippingAddress CustomField u) = lit ""
    /\ customFields (@getShippingAddress CustomField u) = []
    /\ Forall (fun f : jsstring => f <> [])
         (requiredStrings (@getShippingAddress CustomField u)).
Proof.
  intros CustomField u v. destruct u, v.
  repeat split.
  unfold requiredStrings, getShippingAddress; simpl.
  repeat (constructor; [ discriminate | ]). constructor.
Qed.

End Properties.

(** ** The properties on the sample environment *)

(** The three ways of initialising a new strategy succeed, and give the
    three modes. *)
Lemma sample_modes :
  modeOf clientOnlyStrategy = BoltClientOnly
  /\ modeOf embeddedStrategy = BoltEmbeddedMode
  /\ modeOf fullCheckoutStrategy = FullCheckout
  /\ _boltClient clientOnlyStrategy = Some 1%nat
  /\ _boltClient fullCheckoutStrategy = Some 1%nat
  /\ _embeddedField embeddedStrategy = Some 3%nat.
Proof. repeat split. Qed.



Lemma validateTokenizeResult_witness :
  _validateTokenizeResult sampleTokenize = Resolved tt.
Proof.
  apply (validateTokenizeResult_rejects_iff_invalid sampleTokenize).
  unfold validTokenizeResult, parsesAsNumber. repeat split; discriminate.
Defined.



Lemma execute_embedded_payload_witness :
  callsOf (run (sampleHandler true)
             (execute payloadWithPayment None embeddedStrategy) tt)
  = [@embeddedField_tokenize sampleTypes 3%nat;
     store_dispatch (@submitOrder sampleTypes tt None);
     store_dispatch (@submitPayment sampleTypes
       {| submit_methodId := Some (lit "bolt");
          submit_paymentData :=
            FormattedPayload
              {| cc_token := lit "tok_1";
                 last_four_digits := Finite false 4242 0;
                 iin := Finite false 411111 0;
                 expiration_month := Finite false 9 0;
                 expiration_year := Finite false 2025 0 |}
              {| create_account := false; embedded_checkout := true |} |})].
Proof.
  apply (@execute_embedded_payload sampleTypes unit (sampleHandler true)
           tt tt tt payloadWithPayment samplePayment None embeddedStrategy
           3%nat (sampleState true)); reflexivity.
Defined.

Lemma initialize_without_methodId_witness :
  run (sampleHandler true)
      (initialize {| methodId := None;
                     bolt := Some {| useBigCommerceCheckout := true;
                                     containerId := Some (lit "bolt-embedded") |} |}
                  newStrategy) tt
  = (Rejected (InvalidArgumentError (notProvided "options.methodId")),
     newStrategy, tt, []).
Proof.
  apply (@initialize_without_methodId sampleTypes). reflexivity.
Defined.

Lemma execute_without_client_witness :
  (execute payloadWithoutPayment None clientOnlyDeinitialized
   = Ret (Rejected (NotInitializedError PaymentNotInitialized),
          clientOnlyDeinitialized))
  /\ (execute payloadWithPayment None newStrategy
      = Ret (Rejected (NotInitializedError PaymentNotInitialized),
             newStrategy)).
Proof.
  split.
  - apply (@execute_without_client sampleTypes payloadWithoutPayment None
             clientOnlyDeinitialized); [ left | ]; reflexivity.
  - apply (@execute_without_client sampleTypes payloadWithPayment None
             newStrategy); [ right | ]; reflexivity.
Defined.

(** The state of C10 is reached from a new strategy: the one-click
    initialisation sets the flags and then fails for want of a container,
    and [deinitialize] changes neither the flags nor the field handle. *)
Lemma execute_embedded_without_field_witness :
  outcomeOf (run (sampleHandler true)
               (initialize (sampleOptions true None) newStrategy) tt)
  = Rejected (InvalidArgumentError (notProvided "options.bolt.containerId"))
  /\ execute payloadWithPayment None embeddedFailedDeinitialized
     = Ret (Rejected PaymentMethodInvalidError, embeddedFailedDeinitialized).
Proof.
  split; [ reflexivity | ].
  apply (@execute_embedded_without_field sampleTypes payloadWithPayment None
           embeddedFailedDeinitialized);
    [ reflexivity | reflexivity | discriminate ].
Defined.

(** After a successful one-click initialisation and a deinitialisation the
    field handle is still there: [execute] tokenizes with it although both
    client handles are gone. *)
Lemma execute_embedded_after_deinitialize :
  _boltClient (deinitialized embeddedStrategy) = None
  /\ _boltEmbedded (deinitialized embeddedStrategy) = None
  /\ _embeddedField (deinitialized embeddedStrategy) = Some 3%nat
  /\ callsOf (run (sampleHandler true)
               (execute payloadWithPayment None (deinitialized embeddedStrategy))
               tt)
     = callsOf (run (sampleHandler true)
                 (execute payloadWithPayment None embeddedStrategy) tt).
Proof. repeat split. Qed.

(** The two other paths on the sample environment: the calls made, in
    order. *)
Example execute_client_only_calls :
  callsOf (run (sampleHandler false)
             (execute payloadWithPayment None clientOnlyStrategy) tt)
  = [store_dispatch (@submitOrder sampleTypes tt None);
     store_getState;
     store_dispatch (loadPaymentMethod (Some (lit "bolt")) None);
     @boltClient_configure_open sampleTypes 1%nat (lit "order_token");
     onSuccess_callback;
     store_dispatch (submitPayment
       {| submit_methodId := Some (lit "bolt");
          submit_paymentData := NonceData (lit "ref_1") (Some true) |})].
Proof. reflexivity. Qed.

Example execute_full_checkout_calls :
  callsOf (run (sampleHandler false)
             (execute payloadWithPayment None fullCheckoutStrategy) tt)
  = [store_dispatch (@submitOrder sampleTypes tt None);
     @boltClient_getTransactionReference sampleTypes 1%nat;
     store_dispatch (submitPayment
       {| submit_methodId := Some (lit "bolt");
          submit_paymentData :=
            @InstrumentWithNonce sampleTypes (Some true) (lit "ref_1") |})].
Proof. reflexivity. Qed.

(** Closing the Bolt window cancels the payment: no payment is submitted. *)
Example execute_client_only_cancelled :
  outcomeOf (run closingHandler
               (execute payloadWithPayment None clientOnlyStrategy) tt)
  = Rejected PaymentMethodCancelledError
  /\ callsOf (run closingHandler
                (execute payloadWithPayment None clientOnlyStrategy) tt)
     = [store_dispatch (@submitOrder sampleTypes tt None);
        store_getState;
        store_dispatch (loadPaymentMethod (Some (lit "bolt")) None);
        @boltClient_configure_open sampleTypes 1%nat (lit "order_token")].
Proof. split; reflexivity. Qed.

(** ** More properties of the methods *)

Section MoreProperties.

Context {X : ExternalTypes}.

Lemma holds_weaken (A : Type) (P Q : list Event -> A -> Prop) (p : Prog A) :
  (forall l a, P l a -> Q l a) -> holds P p -> holds Q p.
Proof.
  revert P Q. induction p as [a | c k IH]; simpl; intros P Q HPQ H.
  - apply HPQ, H.
  - intros r. eapply IH; [ | apply H ]. intros l a. apply HPQ.
Qed.

Lemma holds_pbind (A B : Type) (Q : list Event -> B -> Prop) (p : Prog A)
  (f : A -> Prog B) :
  holds (fun l a => holds (fun l2 b => Q (l ++ l2) b) (f a)) p ->
  holds Q (pbind p f).
Proof.
  revert Q. induction p as [a | c k IH]; simpl; intros Q H.
  - exact H.
  - intros r. apply IH. exact (H r).
Qed.

(** What holds of every answer holds of every run. *)
Lemma holds_run (A W : Type) (P : list Event -> A -> Prop) (p : Prog A) :
  holds P p ->
  forall (h : Handler W) (w : W),
    P (runEvents h p w) (resultOf (run h p w)).
Proof.
  revert P. induction p as [a | c k IH]; simpl; intros P H h w.
  - exact H.
  - destruct (h c w) as [r w1].
    specialize (IH r _ (H r) h w1).
    destruct (run h (k r) w1) as [[a w2] log]. exact IH.
Qed.

(** The calls of a run are the calls of its events. *)
Lemma runEvents_calls (A W : Type) (h : Handler W) (p : Prog A) (w : W) :
  map callOf (runEvents h p w) = callsOf (run h p w).
Proof.
  revert w. induction p as [a | c k IH]; simpl; intros w.
  - reflexivity.
  - destruct (h c w) as [r w1]. specialize (IH r w1).
    destruct (run h (k r) w1) as [[a w2] log]. simpl in *. now rewrite IH.
Qed.

Lemma postE_ret (A : Type) (a : A) (s : BoltPaymentStrategy)
  (Q : list Event -> outcome A -> BoltPaymentStrategy -> Prop) :
  Q [] (Resolved a) s -> postE (ret a) s Q.
Proof. intros H. exact H. Qed.

Lemma postE_throw (A : Type) (e : Error) (s : BoltPaymentStrategy)
  (Q : list Event -> outcome A -> BoltPaymentStrategy -> Prop) :
  Q [] (Rejected e) s -> postE (throw e) s Q.
Proof. intros H. exact H. Qed.

Lemma postE_this (s : BoltPaymentStrategy)
  (Q : list Event -> outcome BoltPaymentStrategy -> BoltPaymentStrategy
       -> Prop) :
  Q [] (Resolved s) s -> postE this s Q.
Proof. intros H. exact H. Qed.

Lemma postE_settle (A : Type) (o : outcome A) (s : BoltPaymentStrategy)
  (Q : list Event -> outcome A -> BoltPaymentStrategy -> Prop) :
  Q [] o s -> postE (settle o) s Q.
Proof. intros H. exact H. Qed.

Lemma postE_assign (f : BoltPaymentStrategy -> BoltPaymentStrategy)
  (s : BoltPaymentStrategy)
  (Q : list Event -> outcome unit -> BoltPaymentStrategy -> Prop) :
  Q [] (Resolved tt) (f s) -> postE (assign f) s Q.
Proof. intros H. exact H. Qed.

Lemma postE_call (c : Call) (s : BoltPaymentStrategy)
  (Q : list Event -> outcome (Resp c) -> BoltPaymentStrategy -> Prop) :
  (forall r, Q [Ev c r] (Resolved r) s) -> postE (call c) s Q.
Proof. intros H r. apply H. Qed.

Lemma postE_bind (A B : Type) (m : M A) (f : A -> M B)
  (s : BoltPaymentStrategy)
  (Q : list Event -> outcome B -> BoltPaymentStrategy -> Prop) :
  postE m s (fun l o s1 =>
               match o with
               | Resolved a => postE (f a) s1 (fun l2 => Q (l ++ l2))
               | Rejected e => Q (l ++ []) (Rejected e) s1
               end) ->
  postE (bind m f) s Q.
Proof.
  intros H. unfold postE, bind. apply holds_pbind.
  eapply holds_weaken; [ | exact H ].
  intros l [o s1]; simpl. destruct o as [a | e]; intros H1; exact H1.
Qed.

Lemma postE_run (A W : Type) (m : M A) (s : BoltPaymentStrategy)
  (Q : list Event -> outcome A -> BoltPaymentStrategy -> Prop)
  (h : Handler W) (w : W) :
  postE m s Q ->
  Q (runEvents h (m s) w) (outcomeOf (run h (m s) w))
    (fieldsAfter (run h (m s) w)).
Proof.
  intros H.
  exact (holds_run (outcome A * BoltPaymentStrategy) W
           (fun l r => Q l (fst r) (snd r)) (m s) H h w).
Qed.

(** One step through a method, keeping the answered calls. *)
Ltac postE_step :=
  lazymatch goal with
  | |- postE (bind _ _) _ _ => apply postE_bind
  | |- postE (call _) _ _ => apply postE_call; intro
  | |- postE (settle _) _ _ => apply postE_settle
  | |- postE (ret _) _ _ => apply postE_ret
  | |- postE (throw _) _ _ => apply postE_throw
  | |- postE this _ _ => apply postE_this
  | |- postE (assign _) _ _ => apply postE_assign
  | |- postE _getBoltClient _ _ => unfold _getBoltClient
  | |- postE _getBoltEmbedded _ _ => unfold _getBoltEmbedded
  | |- postE (_mountBoltEmbeddedField _) _ _ => unfold _mountBoltEmbeddedField
  | |- postE (_executeWithBoltClient _ _) _ _ => unfold _executeWithBoltClient
  | |- postE (_executeWithBoltEmbedded _ _) _ _ =>
      unfold _executeWithBoltEmbedded
  | |- postE (_executeWithBoltFullCheckout _ _) _ _ =>
      unfold _executeWithBoltFullCheckout
  | |- postE (execute _ _) _ _ => unfold execute
  | |- postE (match ?x with _ => _ end) _ _ => destruct x eqn:?
  | |- match ?x with _ => _ end => destruct x eqn:?
  end; cbv beta iota.

(** Through a whole method, down to the postcondition at each of its ends. *)
Ltac postE_walk :=
  repeat lazymatch goal with |- context [postE] => postE_step end.

(** X7.  [execute] swallows no failure of a collaborator: it makes no call
    after one that threw or rejected, and its outcome is then that very
    error. *)
Theorem execute_propagates_rejections :
  forall (W : Type) (h : Handler W) (w : W) (payload : OrderRequestBody)
         (options : option PaymentRequestOptions) (s : BoltPaymentStrategy),
    propagated (runEvents h (execute payload options s) w)
               (outcomeOf (run h (execute payload options s) w)).
Proof.
  intros W h w payload options s.
  apply (postE_run _ W (execute payload options) s
           (fun l o _ => propagated l o) h w).
  repeat postE_step; simpl; auto;
    match goal with
    | |- context [match ?r with Resolved _ => _ | Rejected _ => _ end] =>
        destruct r; simpl; auto
    end.
Qed.

(** X6.  [initialize] swallows no failure of a collaborator either: a
    script that fails to load, a field that cannot be created or mounted,
    ends it with that very error and without a further call. *)
Theorem initialize_propagates_rejections :
  forall (W : Type) (h : Handler W) (w : W)
         (options : PaymentInitializeOptions) (s : BoltPaymentStrategy),
    propagated (runEvents h (initialize options s) w)
               (outcomeOf (run h (initialize options s) w)).
Proof.
  intros W h w options s.
  apply (postE_run _ W (initialize options) s
           (fun l o _ => propagated l o) h w).
  unfold initialize.
  destruct (negb (truthy (methodId options))); [ postE_step; exact I | ].
  destruct (bolt options) as [b |];
    [ destruct (useBigCommerceCheckout b) | ];
    repeat postE_step; simpl; auto.
Qed.

(** X8.  [execute] writes no field of the strategy, in any mode and however
    it ends. *)
Theorem execute_leaves_fields :
  forall (W : Type) (h : Handler W) (w : W) (payload : OrderRequestBody)
         (options : option PaymentRequestOptions) (s : BoltPaymentStrategy),
    fieldsAfter (run h (execute payload options s) w) = s.
Proof.
  intros W h w payload options s.
  apply (postE_run _ W (execute payload options) s
           (fun _ _ s1 => s1 = s) h w).
  repeat postE_step; reflexivity.
Qed.

Lemma order_or_payment (c : Call) :
  isPaymentSubmission c = true -> isOrderSubmission c = false.
Proof.
  destruct c as [ | a | | | | | | | | ]; try discriminate.
  destruct a; try discriminate. reflexivity.
Qed.

(** What [ordered] says of a list of calls. *)
Lemma ordered_spec (l : list Call) (seen : bool) :
  ordered seen l = true ->
  (forall pre c post,
      l = pre ++ c :: post -> isPaymentSubmission c = true ->
      post = [] /\ seen || existsb isOrderSubmission pre = true)
  /\ (List.length (filter isOrderSubmission l) + (if seen then 1 else 0)
      <= 1)%nat.
Proof.
  revert seen. induction l as [| c0 r IH]; intros seen H.
  - split.
    + intros [| x pre] c post E; discriminate E.
    + simpl. destruct seen; lia.
  - simpl in H. destruct (isPaymentSubmission c0) eqn:Hp.
    + apply andb_true_iff in H. destruct H as [Hs Hr].
      destruct r as [| x r]; [ | discriminate Hr ].
      split.
      * intros [| x pre] c post E Hc.
        -- injection E as <- <-. split; [ reflexivity | ].
           now rewrite Hs.
        -- injection E as _ E. destruct pre; discriminate E.
      * simpl. rewrite (order_or_payment _ Hp). simpl.
        destruct seen; [ lia | discriminate Hs ].
    + destruct (isOrderSubmission c0) eqn:Ho.
      * apply andb_true_iff in H. destruct H as [Hs Hr].
        destruct seen; [ discriminate Hs | ].
        destruct (IH true Hr) as [IH1 IH2]. split.
        -- intros [| x pre] c post E Hc.
           ++ injection E as <- _. rewrite Hp in Hc. discriminate Hc.
           ++ injection E as <- E. destruct (IH1 pre c post E Hc) as [-> _].
              split; [ reflexivity | ]. simpl. now rewrite Ho.
        -- simpl. rewrite Ho. simpl. lia.
      * destruct (IH seen H) as [IH1 IH2]. split.
        -- intros [| x pre] c post E Hc.
           ++ injection E as <- _. rewrite Hp in Hc. discriminate Hc.
           ++ injection E as <- E. destruct (IH1 pre c post E Hc) as [-> Hx].
              split; [ reflexivity | ]. simpl. rewrite Ho. exact Hx.
        -- simpl. rewrite Ho. exact IH2.
Qed.

Lemma execute_ordered (payload : OrderRequestBody)
  (options : option PaymentRequestOptions) (s : BoltPaymentStrategy) :
  postE (execute payload options) s
    (fun l _ _ => ordered false (map callOf l) = true).
Proof. repeat postE_step; reflexivity. Qed.

(** X9.  In every run of [execute], in any mode, a payment is submitted only
    as the very last call and only after an order was submitted, and at
    most one order is submitted. *)
Theorem execute_order_before_payment :
  forall (W : Type) (h : Handler W) (w : W) (payload : OrderRequestBody)
         (options : option PaymentRequestOptions) (s : BoltPaymentStrategy),
    (forall pre c post,
        callsOf (run h (execute payload options s) w) = pre ++ c :: post ->
        isPaymentSubmission c = true ->
        post = [] /\ existsb isOrderSubmission pre = true)
    /\ (List.length (filter isOrderSubmission
                       (callsOf (run h (execute payload options s) w)))
        <= 1)%nat.
Proof.
  intros W h w payload options s.
  pose proof (postE_run _ W (execute payload options) s _ h w
                (execute_ordered payload options s)) as H.
  cbv beta in H. rewrite runEvents_calls in H.
  destruct (ordered_spec _ _ H) as [H1 H2]. split.
  - intros pre c post E Hc. destruct (H1 pre c post E Hc) as [Hpost Hpre].
    split; assumption.
  - lia.
Qed.

(** *** The runs of [initialize] *)

(** Unfolding the monad, to run a method call by call. *)
Ltac expose :=
  cbv [bind call settle ret assign this throw _mountBoltEmbeddedField
       _getBoltEmbedded _getBoltClient];
  cbn [pbind run negb].

Ltac answer H := rewrite H; cbn [pbind run negb].

(** X3.  The one-click initialisation, when every collaborator succeeds:
    the store state is read, the Bolt client and then the embedded client
    are loaded with the key, test mode and developer configuration of the
    payment method, a [payment_field] is created and mounted on
    [#containerId], and the state is read again.  The strategy then holds
    both clients and the field, in the BoltEmbedded mode. *)
Theorem initialize_embedded_run :
  forall (W : Type) (h : Handler W) (w w1 w2 w3 w4 w5 w6 : W)
         (options : PaymentInitializeOptions) (b : BoltOptions)
         (s : BoltPaymentStrategy) (st st1 : InternalCheckoutSelectors)
         (pm : PaymentMethod) (client : BoltCheckout) (embedded : BoltEmbedded)
         (field : BoltEmbededField) (c : code_unit) (cid : jsstring),
    truthy (methodId options) = true ->
    bolt options = Some b ->
    useBigCommerceCheckout b = true ->
    containerId b = Some (c :: cid) ->
    h store_getState w = (st, w1) ->
    getPaymentMethod st (methodId options) = Some pm ->
    truthy (initializationKey pm) = true ->
    oneClickEnabled st (methodId options) = true ->
    h (loadBoltClient (initializationKey pm) (testModeOf pm)
         (developerConfigOf pm)) w1 = (Resolved client, w2) ->
    h (loadBoltEmbedded (initializationKey pm) (testModeOf pm)
         (developerConfigOf pm)) w2 = (Resolved embedded, w3) ->
    h (boltEmbedded_create embedded (lit "payment_field")) w3
      = (Resolved field, w4) ->
    h (embeddedField_mount field (lit "#" ++ c :: cid)) w4
      = (Resolved tt, w5) ->
    h store_getState w5 = (st1, w6) ->
    run h (initialize options s) w
    = (Resolved st1,
       {| _boltClient := Some client;
          _boltEmbedded := Some embedded;
          _embeddedField := Some field;
          _useBoltClient := false;
          _useBoltEmbedded := true |},
       w6,
       [store_getState;
        loadBoltClient (initializationKey pm) (testModeOf pm)
          (developerConfigOf pm);
        loadBoltEmbedded (initializationKey pm) (testModeOf pm)
          (developerConfigOf pm);
        boltEmbedded_create embedded (lit "payment_field");
        embeddedField_mount field (lit "#" ++ c :: cid);
        store_getState]).
Proof.
  intros W h w w1 w2 w3 w4 w5 w6 options b s st st1 pm client embedded field
    c cid Hid Hb Hbc Hcid Hst Hpm Hkey Hone Hclient Hemb Hcreate Hmount Hst1.
  unfold oneClickEnabled in Hone. rewrite Hpm in Hone.
  unfold initialize. rewrite Hid, Hb, Hbc. expose. answer Hst.
  rewrite Hpm. cbv beta iota zeta.
  fold (initializationKey pm) (testModeOf pm) (developerConfigOf pm).
  rewrite Hkey. cbn [absent orb negb pbind run]. answer Hclient.
  cbn [_useBoltEmbedded set_useBoltEmbedded]. rewrite Hone, Hcid.
  cbn [andb pbind run]. answer Hemb.
  cbn [_boltEmbedded set_boltEmbedded pbind run]. answer Hcreate.
  answer Hmount. answer Hst1. reflexivity.
Qed.

(** X1.  With the platform checkout asked for, a payment method that the
    store does not know, or that has no publishable key, makes [initialize]
    fail with the missing-data error after it has read the store state: no
    script is loaded and no field is written. *)
Theorem initialize_missing_payment_method :
  forall (W : Type) (h : Handler W) (w w1 : W)
         (options : PaymentInitializeOptions) (s : BoltPaymentStrategy)
         (st : InternalCheckoutSelectors),
    truthy (methodId options) = true ->
    requestsBigCommerceCheckout options = true ->
    h store_getState w = (st, w1) ->
    match getPaymentMethod st (methodId options) with
    | Some pm => truthy (initializationKey pm) = false
    | None => True
    end ->
    run h (initialize options s) w
    = (Rejected (MissingDataError MissingPaymentMethod), s, w1,
       [store_getState]).
Proof.
  intros W h w w1 options s st Hid Hreq Hst Hpm.
  unfold requestsBigCommerceCheckout in Hreq. unfold initialize.
  destruct (bolt options) as [b |]; [ | discriminate Hreq ].
  rewrite Hid, Hreq. expose. answer Hst.
  destruct (getPaymentMethod st (methodId options)) as [pm |].
  - cbv beta iota zeta. fold (initializationKey pm). rewrite Hpm. reflexivity.
  - reflexivity.
Qed.

(** X2.  The one-click initialisation without a container fails with the
    invalid-argument error only after the Bolt client is loaded and both
    flags are written: the strategy is left in the BoltEmbedded mode with
    the client handle, and without an embedded client or a new field. *)
Theorem initialize_embedded_without_container :
  forall (W : Type) (h : Handler W) (w w1 w2 : W)
         (options : PaymentInitializeOptions) (b : BoltOptions)
         (s : BoltPaymentStrategy) (st : InternalCheckoutSelectors)
         (pm : PaymentMethod) (client : BoltCheckout),
    truthy (methodId options) = true ->
    bolt options = Some b ->
    useBigCommerceCheckout b = true ->
    truthy (containerId b) = false ->
    h store_getState w = (st, w1) ->
    getPaymentMethod st (methodId options) = Some pm ->
    truthy (initializationKey pm) = true ->
    oneClickEnabled st (methodId options) = true ->
    h (loadBoltClient (initializationKey pm) (testModeOf pm)
         (developerConfigOf pm)) w1 = (Resolved client, w2) ->
    run h (initialize options s) w
    = (Rejected (InvalidArgumentError
                   (notProvided "options.bolt.containerId")),
       {| _boltClient := Some client;
          _boltEmbedded := _boltEmbedded s;
          _embeddedField := _embeddedField s;
          _useBoltClient := false;
          _useBoltEmbedded := true |},
       w2,
       [store_getState;
        loadBoltClient (initializationKey pm) (testModeOf pm)
          (developerConfigOf pm)]).
Proof.
  intros W h w w1 w2 options b s st pm client Hid Hb Hbc Hcid Hst Hpm Hkey
    Hone Hclient.
  unfold oneClickEnabled in Hone. rewrite Hpm in Hone.
  unfold initialize. rewrite Hid, Hb, Hbc. expose. answer Hst.
  rewrite Hpm. cbv beta iota zeta.
  fold (initializationKey pm) (testModeOf pm) (developerConfigOf pm).
  rewrite Hkey. cbn [absent orb negb pbind run]. answer Hclient.
  cbn [_useBoltEmbedded set_useBoltEmbedded]. rewrite Hone.
  cbn [andb pbind run].
  destruct (containerId b) as [[| c cid] |]; try discriminate Hcid;
    reflexivity.
Qed.

(** X4.  With the platform checkout and without one-click, [initialize]
    loads the Bolt client alone, whatever [containerId] holds: no embedded
    client is loaded and no field is mounted, and the strategy is in the
    BoltClientOnly mode. *)
Theorem initialize_client_only_run :
  forall (W : Type) (h : Handler W) (w w1 w2 w3 : W)
         (options : PaymentInitializeOptions) (b : BoltOptions)
         (s : BoltPaymentStrategy) (st st1 : InternalCheckoutSelectors)
         (pm : PaymentMethod) (client : BoltCheckout),
    truthy (methodId options) = true ->
    bolt options = Some b ->
    useBigCommerceCheckout b = true ->
    h store_getState w = (st, w1) ->
    getPaymentMethod st (methodId options) = Some pm ->
    truthy (initializationKey pm) = true ->
    oneClickEnabled st (methodId options) = false ->
    h (loadBoltClient (initializationKey pm) (testModeOf pm)
         (developerConfigOf pm)) w1 = (Resolved client, w2) ->
    h store_getState w2 = (st1, w3) ->
    run h (initialize options s) w
    = (Resolved st1,
       {| _boltClient := Some client;
          _boltEmbedded := _boltEmbedded s;
          _embeddedField := _embeddedField s;
          _useBoltClient := true;
          _useBoltEmbedded := false |},
       w3,
       [store_getState;
        loadBoltClient (initializationKey pm) (testModeOf pm)
          (developerConfigOf pm);
        store_getState]).
Proof.
  intros W h w w1 w2 w3 options b s st st1 pm client Hid Hb Hbc Hst Hpm Hkey
    Hone Hclient Hst1.
  unfold oneClickEnabled in Hone. rewrite Hpm in Hone.
  unfold initialize. rewrite Hid, Hb, Hbc. expose. answer Hst.
  rewrite Hpm. cbv beta iota zeta.
  fold (initializationKey pm) (testModeOf pm) (developerConfigOf pm).
  rewrite Hkey. cbn [absent orb negb pbind run]. answer Hclient.
  cbn [_useBoltEmbedded set_useBoltEmbedded]. rewrite Hone.
  cbn [andb pbind run]. answer Hst1. reflexivity.
Qed.

(** X5.  Without the platform checkout, [initialize] loads the Bolt client
    with no argument and reads the store state: the payment method is never
    looked up, and only the client handle is written, the mode flags and the
    embedded handles staying what they were. *)
Theorem initialize_plain_run :
  forall (W : Type) (h : Handler W) (w w1 w2 : W)
         (options : PaymentInitializeOptions) (s : BoltPaymentStrategy)
         (st : InternalCheckoutSelectors) (client : BoltCheckout),
    truthy (methodId options) = true ->
    requestsBigCommerceCheckout options = false ->
    h (loadBoltClient None None None) w = (Resolved client, w1) ->
    h store_getState w1 = (st, w2) ->
    run h (initialize options s) w
    = (Resolved st, set_boltClient (Some client) s, w2,
       [loadBoltClient None None None; store_getState]).
Proof.
  intros W h w w1 w2 options s st client Hid Hreq Hclient Hst.
  unfold requestsBigCommerceCheckout in Hreq. unfold initialize.
  rewrite Hid.
  destruct (bolt options) as [b |]; [ rewrite Hreq | ];
    expose; answer Hclient; answer Hst; reflexivity.
Qed.

(** *** The runs of [execute] *)

(** X10.  In the BoltEmbedded mode nothing is submitted unless the
    tokenization gives a result that passes the validation: when the promise
    rejects, resolves to nothing, resolves to an error value or to a result
    that [_validateTokenizeResult] refuses, [execute] fails with the
    corresponding error and the tokenization is its only call. *)
Theorem execute_embedded_stops_without_token :
  forall (W : Type) (h : Handler W) (w w1 : W) (payload : OrderRequestBody)
         (p : OrderPaymentRequestBody)
         (options : option PaymentRequestOptions) (s : BoltPaymentStrategy)
         (field : BoltEmbededField) (a : outcome (option TokenizeValue))
         (err : Error),
    modeOf s = BoltEmbeddedMode ->
    _embeddedField s = Some field ->
    payment payload = Some p ->
    h (embeddedField_tokenize field) w = (a, w1) ->
    tokenizeFailure a = Some err ->
    run h (execute payload options s) w
    = (Rejected err, s, w1, [embeddedField_tokenize field]).
Proof.
  intros W h w w1 payload p options s field a err Hm Hf Hp Htok Hfail.
  rewrite execute_dispatch, Hm. unfold _executeWithBoltEmbedded. rewrite Hp.
  expose. rewrite Hf. cbn [pbind run]. answer Htok.
  destruct a as [[[e | r] |] | e]; simpl in Hfail.
  - injection Hfail as <-. reflexivity.
  - destruct (_validateTokenizeResult r) as [[] | e];
      [ discriminate Hfail | injection Hfail as <- ]. reflexivity.
  - injection Hfail as <-. reflexivity.
  - injection Hfail as <-. reflexivity.
Qed.


(** X12.  In the FullCheckout mode with the client handle present, a payment
    without [methodId] fails with the missing-data error for the payment
    method, and one with a [methodId] and without [paymentData] with the
    missing-data error for the payment; both before any call. *)
Theorem execute_full_checkout_missing_data :
  forall (payload : OrderRequestBody) (p : OrderPaymentRequestBody)
         (options : option PaymentRequestOptions) (s : BoltPaymentStrategy),
    modeOf s = FullCheckout ->
    _boltClient s <> None ->
    payment payload = Some p ->
    (truthy (payment_methodId p) = false ->
     execute payload options s
     = Ret (Rejected (MissingDataError MissingPaymentMethod), s))
    /\ (truthy (payment_methodId p) = true -> paymentData p = None ->
        execute payload options s
        = Ret (Rejected (MissingDataError MissingPayment), s)).
Proof.
  intros payload p options s Hm Hc Hp.
  destruct (_boltClient s) as [c |] eqn:Hclient; [ | contradiction ].
  rewrite execute_dispatch, Hm. unfold _executeWithBoltFullCheckout.
  erewrite getBoltClient_present by exact Hclient. rewrite Hp.
  split.
  - intros Hid. rewrite Hid. reflexivity.
  - intros Hid Hdata. rewrite Hid, Hdata. reflexivity.
Qed.

(** X13.  In the FullCheckout mode the order is submitted before Bolt is
    asked for the transaction reference.  A reference that is missing or
    empty ends [execute] with the payment-method-invalid error, the order
    being already submitted and no payment; otherwise the payment is
    submitted with the request's own [paymentData] and the reference as its
    nonce. *)
Theorem execute_full_checkout_reference :
  forall (W : Type) (h : Handler W) (w w1 w2 : W)
         (payload : OrderRequestBody) (p : OrderPaymentRequestBody)
         (options : option PaymentRequestOptions) (s : BoltPaymentStrategy)
         (client : BoltCheckout) (instrument : PaymentInstrument)
         (state : InternalCheckoutSelectors) (ref : option jsstring),
    modeOf s = FullCheckout ->
    _boltClient s = Some client ->
    payment payload = Some p ->
    truthy (payment_methodId p) = true ->
    paymentData p = Some instrument ->
    h (store_dispatch (submitOrder (order payload) options)) w
      = (Resolved state, w1) ->
    h (boltClient_getTransactionReference client) w1 = (Resolved ref, w2) ->
    (truthy ref = false ->
     run h (execute payload options s) w
     = (Rejected PaymentMethodInvalidError, s, w2,
        [store_dispatch (submitOrder (order payload) options);
         boltClient_getTransactionReference client]))
    /\ (forall nonce : jsstring,
          ref = Some nonce -> nonce <> [] ->
          let paymentPayload :=
            {| submit_methodId := payment_methodId p;
               submit_paymentData := InstrumentWithNonce instrument nonce |} in
          run h (execute payload options s) w
          = (fst (h (store_dispatch (submitPayment paymentPayload)) w2), s,
             snd (h (store_dispatch (submitPayment paymentPayload)) w2),
             [store_dispatch (submitOrder (order payload) options);
              boltClient_getTransactionReference client;
              store_dispatch (submitPayment paymentPayload)])).
Proof.
  intros W h w w1 w2 payload p options s client instrument state ref Hm Hc Hp
    Hid Hdata Hord Href.
  assert (E : run h (execute payload options s) w
              = let '(a, w3, log) :=
                  run h (match ref with
                         | Some (c :: r) =>
                             Do (store_dispatch (submitPayment
                                   {| submit_methodId := payment_methodId p;
                                      submit_paymentData :=
                                        InstrumentWithNonce instrument
                                          (c :: r) |}))
                                (fun a => Ret (a, s))
                         | _ => Ret (Rejected PaymentMethodInvalidError, s)
                         end) w2 in
                (a, w3,
                 store_dispatch (submitOrder (order payload) options)
                 :: boltClient_getTransactionReference client :: log)).
  { rewrite execute_dispatch, Hm. unfold _executeWithBoltFullCheckout.
    erewrite getBoltClient_present by exact Hc. rewrite Hp, Hid, Hdata.
    expose. answer Hord. answer Href.
    destruct ref as [[| c r] |]; cbn [pbind run]; try reflexivity.
    destruct (h _ w2) as [a w3]. destruct a; reflexivity. }
  rewrite E. split.
  - intros Href0. destruct ref as [[| c r] |]; try discriminate Href0;
      reflexivity.
  - intros nonce -> Hn paymentPayload.
    destruct nonce as [| c r]; [ contradiction | ].
    cbn [run]. fold paymentPayload.
    destruct (h (store_dispatch (submitPayment paymentPayload)) w2)
      as [a w3]. reflexivity.
Qed.

(** X14.  In the BoltClientOnly mode the Bolt window is opened at most
    once, by the client the strategy holds and with the client token of the
    payment method as just reloaded.  A payment is submitted only if the
    window reported a success: its nonce is the reference of that
    transaction and its save flag the one of the request.  A closed window
    ends [execute] with the cancellation error, and a request without
    [paymentData] with a TypeError after the window succeeded; in both cases
    no payment is submitted. *)
Theorem execute_client_only_payment :
  forall (W : Type) (h : Handler W) (w : W) (payload : OrderRequestBody)
         (p : OrderPaymentRequestBody)
         (options : option PaymentRequestOptions) (s : BoltPaymentStrategy),
    modeOf s = BoltClientOnly ->
    payment payload = Some p ->
    let l := runEvents h (execute payload options s) w in
    let o := outcomeOf (run h (execute payload options s) w) in
    match boltAnswersOf l with
    | [] => paymentsOf l = []
    | [(client, orderToken, a)] =>
        _boltClient s = Some client
        /\ orderToken <> []
        /\ (exists st pm,
              methodLoadsOf l = [(payment_methodId p, Resolved st)]
              /\ getPaymentMethod st (payment_methodId p) = Some pm
              /\ clientToken pm = Some orderToken)
        /\ match a with
           | Resolved (success transaction) =>
               match paymentData p with
               | Some instrument =>
                   paymentsOf l
                   = [{| submit_methodId := payment_methodId p;
                         submit_paymentData :=
                           NonceData (reference transaction)
                             (shouldSaveInstrument instrument) |}]
               | None => paymentsOf l = [] /\ o = Rejected TypeError
               end
           | Resolved close =>
               paymentsOf l = [] /\ o = Rejected PaymentMethodCancelledError
           | Rejected e => paymentsOf l = [] /\ o = Rejected e
           end
    | _ => False
    end.
Proof.
  intros W h w payload p options s Hm Hp l o. subst l o.
  rewrite execute_dispatch, Hm.
  apply (postE_run _ W (_executeWithBoltClient payload options) s
           (fun l o _ =>
              match boltAnswersOf l with
              | [] => paymentsOf l = []
              | [(client, orderToken, a)] =>
                  _boltClient s = Some client
                  /\ orderToken <> []
                  /\ (exists st pm,
                        methodLoadsOf l = [(payment_methodId p, Resolved st)]
                        /\ getPaymentMethod st (payment_methodId p) = Some pm
                        /\ clientToken pm = Some orderToken)
                  /\ match a with
                     | Resolved (success transaction) =>
                         match paymentData p with
                         | Some instrument =>
                             paymentsOf l
                             = [{| submit_methodId := payment_methodId p;
                                   submit_paymentData :=
                                     NonceData (reference transaction)
                                       (shouldSaveInstrument instrument) |}]
                         | None => paymentsOf l = [] /\ o = Rejected TypeError
                         end
                     | Resolved close =>
                         paymentsOf l = []
                         /\ o = Rejected PaymentMethodCancelledError
                     | Rejected e => paymentsOf l = [] /\ o = Rejected e
                     end
              | _ => False
              end) h w).
  unfold _executeWithBoltClient.
  destruct (payment payload) as [p0 |]; [ | discriminate Hp ].
  injection Hp as ->.
  postE_walk; simpl; try reflexivity;
    try (split; [ reflexivity | split; [ discriminate | split;
           [ eexists; eexists; repeat split; eassumption | ] ] ]);
    repeat split.
Qed.

Lemma client_only_credit (payload : OrderRequestBody)
  (options : option PaymentRequestOptions) (s : BoltPaymentStrategy) :
  postE (_executeWithBoltClient payload options) s
    (fun l o _ =>
       match statesReadOf l with
       | [] => storeCreditsOf l = []
       | [st] =>
           match getCheckoutOrThrow st with
           | Resolved checkout =>
               match isStoreCreditApplied checkout with
               | Some useStoreCredit => storeCreditsOf l = [useStoreCredit]
               | None => storeCreditsOf l = []
               end
           | Rejected e => storeCreditsOf l = [] /\ o = Rejected e
           end
       | _ => False
       end).
Proof.
  unfold _executeWithBoltClient.
  postE_walk; simpl;
    repeat match goal with
           | H : ?x = _ |- context [match ?x with _ => _ end] => rewrite H
           end;
    repeat split.
Qed.

(** X15.  In the BoltClientOnly mode the store state is read at most once,
    after the order is submitted, and store credit is applied exactly when
    the checkout of that state says whether it is applied, with the value it
    says; a state without a checkout ends [execute] with the error of the
    selector, and nothing is applied. *)
Theorem execute_client_only_store_credit :
  forall (W : Type) (h : Handler W) (w : W) (payload : OrderRequestBody)
         (options : option PaymentRequestOptions) (s : BoltPaymentStrategy),
    modeOf s = BoltClientOnly ->
    let l := runEvents h (execute payload options s) w in
    let o := outcomeOf (run h (execute payload options s) w) in
    match statesReadOf l with
    | [] => storeCreditsOf l = []
    | [st] =>
        match getCheckoutOrThrow st with
        | Resolved checkout =>
            match isStoreCreditApplied checkout with
            | Some useStoreCredit => storeCreditsOf l = [useStoreCredit]
            | None => storeCreditsOf l = []
            end
        | Rejected e => storeCreditsOf l = [] /\ o = Rejected e
        end
    | _ => False
    end.
Proof.
  intros W h w payload options s Hm l o. subst l o.
  rewrite execute_dispatch, Hm.
  exact (postE_run _ W (_executeWithBoltClient payload options) s _ h w
           (client_only_credit payload options s)).
Qed.


(** The embedded path reads the field handle and nothing else of the
    strategy. *)
Lemma embedded_path_reads_field (W : Type) (h : Handler W) (w : W)
  (payload : OrderRequestBody) (options : option PaymentRequestOptions)
  (s s1 : BoltPaymentStrategy) :
  _embeddedField s1 = _embeddedField s ->
  outcomeOf (run h (_executeWithBoltEmbedded payload options s1) w)
  = outcomeOf (run h (_executeWithBoltEmbedded payload options s) w)
  /\ worldOf (run h (_executeWithBoltEmbedded payload options s1) w)
     = worldOf (run h (_executeWithBoltEmbedded payload options s) w)
  /\ callsOf (run h (_executeWithBoltEmbedded payload options s1) w)
     = callsOf (run h (_executeWithBoltEmbedded payload options s) w).
Proof.
  intros Hf. unfold _executeWithBoltEmbedded.
  destruct (payment payload) as [p |]; [ | solve [ repeat split ] ].
  expose. rewrite Hf.
  destruct (_embeddedField s) as [field |]; cbn [pbind run];
    [ | solve [ repeat split ] ].
  destruct (h (embeddedField_tokenize field) w) as [a w1].
  destruct a as [[[e | r] |] | e]; cbn [pbind run]; try solve [ repeat split ].
  destruct (_validateTokenizeResult r) as [[] | e]; cbn [pbind run];
    [ | solve [ repeat split ] ].
  destruct (h (store_dispatch (submitOrder (order payload) options)) w1)
    as [a w2].
  destruct a as [st | e]; cbn [pbind run]; [ | solve [ repeat split ] ].
  destruct (h _ w2) as [a w3]. destruct a; repeat split.
Qed.

(** X16.  [deinitialize] does not stop a strategy in the BoltEmbedded mode:
    after it [execute] makes the same calls with the same outcome as
    before it, still tokenizing with the field mounted earlier, although
    both client handles are gone. *)
Theorem deinitialize_keeps_embedded_payments :
  forall (W W0 : Type) (h : Handler W) (w : W) (h0 : Handler W0) (w0 : W0)
         (payload : OrderRequestBody)
         (options : option PaymentRequestOptions) (s : BoltPaymentStrategy),
    modeOf s = BoltEmbeddedMode ->
    let s1 := fieldsAfter (run h0 (deinitialize s) w0) in
    _boltClient s1 = None
    /\ _boltEmbedded s1 = None
    /\ outcomeOf (run h (execute payload options s1) w)
       = outcomeOf (run h (execute payload options s) w)
    /\ callsOf (run h (execute payload options s1) w)
       = callsOf (run h (execute payload options s) w).
Proof.
  intros W W0 h w h0 w0 payload options s Hm s1. subst s1.
  rewrite run_deinitialize. cbn [fieldsAfter resultOf fst snd].
  assert (Hm1 : modeOf (deinitialized s) = BoltEmbeddedMode) by exact Hm.
  rewrite !execute_dispatch, Hm, Hm1.
  destruct (embedded_path_reads_field W h w payload options s
              (deinitialized s) eq_refl) as (Ho & _ & Hc).
  repeat split; assumption.
Qed.

Lemma initialize_keeps_field (options : PaymentInitializeOptions)
  (s : BoltPaymentStrategy) :
  postE (initialize options) s
    (fun _ _ s1 => _embeddedField s <> None -> _embeddedField s1 <> None).
Proof.
  unfold initialize.
  destruct (negb (truthy (methodId options))); [ postE_step; auto | ].
  destruct (bolt options) as [b |];
    [ destruct (useBigCommerceCheckout b) | ];
    postE_walk; simpl; auto; discriminate.
Qed.

(** X19.  No method ever clears the embedded field handle: once a field is
    mounted the strategy holds a field for good, through [initialize],
    [deinitialize], [finalize] and [execute], however each of them ends. *)
Theorem embedded_field_never_cleared :
  forall (W : Type) (h : Handler W) (w : W) (s : BoltPaymentStrategy),
    _embeddedField s <> None ->
    (forall options,
        _embeddedField (fieldsAfter (run h (initialize options s) w)) <> None)
    /\ _embeddedField (fieldsAfter (run h (deinitialize s) w)) <> None
    /\ _embeddedField (fieldsAfter (run h (finalize s) w)) <> None
    /\ (forall payload options,
          _embeddedField (fieldsAfter (run h (execute payload options s) w))
          <> None).
Proof.
  intros W h w s Hs. repeat split.
  - intros options.
    exact (postE_run _ W (initialize options) s _ h w
             (initialize_keeps_field options s) Hs).
  - rewrite run_deinitialize. exact Hs.
  - exact Hs.
  - intros payload options.
    assert (E : fieldsAfter (run h (execute payload options s) w) = s).
    { apply (postE_run _ W (execute payload options) s
               (fun _ _ s1 => s1 = s) h w).
      repeat postE_step; reflexivity. }
    rewrite E. exact Hs.
Qed.

(** X17.  [_validateTokenizeResult] refuses every result whose expiration
    has no hyphen, whatever its other fields: the split has no part at
    index 1, and the month is not a number. *)
Theorem validateTokenizeResult_needs_hyphen :
  forall r : BoltEmbeddedTokenize,
    ~ In hyphen (expiration r) ->
    _validateTokenizeResult r = Rejected (PaymentArgumentInvalidError None).
Proof.
  intros r H. unfold _validateTokenizeResult.
  change (lit "" ++ expiration r) with (expiration r).
  rewrite (split_without_separator _ _ H). cbn [nth_error unaryPlus isNaN].
  rewrite !orb_true_r. reflexivity.
Qed.

(** X18.  [_validateTokenizeResult] accepts every result with a non-empty
    token, strings of decimal digits for [last4] and [bin], and an
    expiration made of decimal digits, a hyphen and decimal digits; each of
    these four strings of digits may even be empty, since the empty string
    converts to 0. *)
Theorem validateTokenizeResult_accepts_digits :
  forall (r : BoltEmbeddedTokenize) (year month : jsstring),
    token r <> [] ->
    forallb isDecimalDigit (last4 r) = true ->
    forallb isDecimalDigit (bin r) = true ->
    expiration r = year ++ hyphen :: month ->
    forallb isDecimalDigit year = true ->
    forallb isDecimalDigit month = true ->
    _validateTokenizeResult r = Resolved tt.
Proof.
  intros r year month Ht Hl Hb He Hy Hm.
  apply validate_resolves_iff. unfold validTokenizeResult. rewrite He.
  rewrite (split_at_separator _ _ _ (digits_without_hyphen _ Hy)).
  rewrite (split_without_separator _ _ (digits_without_hyphen _ Hm)).
  cbn [nth_error].
  repeat split; try assumption; now apply digits_parse.
Qed.

End MoreProperties.

(** ** These properties on the sample environment *)

Lemma initialize_missing_payment_method_witness :
  run (sampleHandler true)
      (initialize {| methodId := Some (lit "other");
                     bolt := Some {| useBigCommerceCheckout := true;
                                     containerId := None |} |}
                  newStrategy) tt
  = (Rejected (MissingDataError MissingPaymentMethod), newStrategy, tt,
     [store_getState]).
Proof.
  apply (@initialize_missing_payment_method sampleTypes unit
           (sampleHandler true) tt tt _ newStrategy (sampleState true));
    [ reflexivity | reflexivity | reflexivity | exact I ].
Defined.

Lemma initialize_embedded_without_container_witness :
  run (sampleHandler true) (initialize (sampleOptions true None) newStrategy)
      tt
  = (Rejected (InvalidArgumentError
                 (notProvided "options.bolt.containerId")),
     (@Build_BoltPaymentStrategy sampleTypes (Some 1%nat) (None) (None)
        false true),
     tt,
     [store_getState;
      @loadBoltClient sampleTypes (Some (lit "pk_test")) (Some true) None]).
Proof.
  apply (@initialize_embedded_without_container sampleTypes unit
           (sampleHandler true) tt tt tt (sampleOptions true None)
           {| useBigCommerceCheckout := true; containerId := None |}
           newStrategy (sampleState true) (samplePaymentMethod true) 1%nat);
    reflexivity.
Defined.

Lemma initialize_embedded_run_witness :
  run (sampleHandler true)
      (initialize (sampleOptions true (Some (lit "bolt-embedded")))
                  newStrategy) tt
  = (Resolved (sampleState true),
     (@Build_BoltPaymentStrategy sampleTypes (Some 1%nat) (Some 2%nat) (Some 3%nat)
        false true),
     tt,
     [store_getState;
      @loadBoltClient sampleTypes (Some (lit "pk_test")) (Some true) None;
      @loadBoltEmbedded sampleTypes (Some (lit "pk_test")) (Some true) None;
      @boltEmbedded_create sampleTypes 2%nat (lit "payment_field");
      @embeddedField_mount sampleTypes 3%nat (lit "#bolt-embedded");
      store_getState]).
Proof.
  apply (@initialize_embedded_run sampleTypes unit (sampleHandler true)
           tt tt tt tt tt tt tt
           (sampleOptions true (Some (lit "bolt-embedded")))
           {| useBigCommerceCheckout := true;
              containerId := Some (lit "bolt-embedded") |}
           newStrategy (sampleState true) (sampleState true)
           (samplePaymentMethod true) 1%nat 2%nat 3%nat
           98 (lit "olt-embedded"));
    reflexivity.
Defined.

Lemma initialize_client_only_run_witness :
  run (sampleHandler false)
      (initialize (sampleOptions true (Some (lit "bolt-embedded")))
                  newStrategy) tt
  = (Resolved (sampleState false),
     (@Build_BoltPaymentStrategy sampleTypes (Some 1%nat) (None) (None)
        true false),
     tt,
     [store_getState;
      @loadBoltClient sampleTypes (Some (lit "pk_test")) (Some true) None;
      store_getState]).
Proof.
  apply (@initialize_client_only_run sampleTypes unit (sampleHandler false)
           tt tt tt tt (sampleOptions true (Some (lit "bolt-embedded")))
           {| useBigCommerceCheckout := true;
              containerId := Some (lit "bolt-embedded") |}
           newStrategy (sampleState false) (sampleState false)
           (samplePaymentMethod false) 1%nat);
    reflexivity.
Defined.

Lemma initialize_plain_run_witness :
  run (sampleHandler true) (initialize (sampleOptions false None) newStrategy)
      tt
  = (Resolved (sampleState true),
     (@Build_BoltPaymentStrategy sampleTypes (Some 1%nat) (None) (None)
        false false),
     tt,
     [@loadBoltClient sampleTypes None None None; store_getState]).
Proof.
  apply (@initialize_plain_run sampleTypes unit (sampleHandler true)
           tt tt tt (sampleOptions false None) newStrategy (sampleState true)
           1%nat);
    reflexivity.
Defined.

Lemma execute_embedded_stops_without_token_witness :
  run emptyTokenizeHandler (execute payloadWithPayment None embeddedStrategy)
      tt
  = (Rejected PaymentMethodInvalidError, embeddedStrategy, tt,
     [@embeddedField_tokenize sampleTypes 3%nat]).
Proof.
  apply (@execute_embedded_stops_without_token sampleTypes unit
           emptyTokenizeHandler tt tt payloadWithPayment samplePayment None
           embeddedStrategy 3%nat (Resolved None));
    reflexivity.
Defined.


Lemma execute_full_checkout_missing_data_witness :
  execute payloadWithoutMethod None fullCheckoutStrategy
  = Ret (Rejected (MissingDataError MissingPaymentMethod),
         fullCheckoutStrategy)
  /\ execute payloadWithoutData None fullCheckoutStrategy
     = Ret (Rejected (MissingDataError MissingPayment), fullCheckoutStrategy).
Proof.
  split.
  - apply (@execute_full_checkout_missing_data sampleTypes
             payloadWithoutMethod
             (@Build_OrderPaymentRequestBody sampleTypes None
                (Some (Some true)))
             None fullCheckoutStrategy);
      [ reflexivity | discriminate | reflexivity | reflexivity ].
  - apply (@execute_full_checkout_missing_data sampleTypes
             payloadWithoutData
             (@Build_OrderPaymentRequestBody sampleTypes (Some (lit "bolt"))
                None)
             None fullCheckoutStrategy);
      [ reflexivity | discriminate | reflexivity | reflexivity
      | reflexivity ].
Defined.

Lemma execute_full_checkout_reference_witness :
  run (sampleHandler false) (execute payloadWithPayment None fullCheckoutStrategy)
      tt
  = (Resolved (sampleState false), fullCheckoutStrategy, tt,
     [store_dispatch (@submitOrder sampleTypes tt None);
      @boltClient_getTransactionReference sampleTypes 1%nat;
      store_dispatch (submitPayment
        {| submit_methodId := Some (lit "bolt");
           submit_paymentData :=
             @InstrumentWithNonce sampleTypes (Some true) (lit "ref_1") |})]).
Proof.
  apply (@execute_full_checkout_reference sampleTypes unit
           (sampleHandler false) tt tt tt payloadWithPayment samplePayment
           None fullCheckoutStrategy 1%nat (Some true) (sampleState false)
           (Some (lit "ref_1")));
    try reflexivity.
  discriminate.
Defined.

Lemma execute_client_only_payment_witness :
  paymentsOf (runEvents (sampleHandler false)
                (execute payloadWithPayment None clientOnlyStrategy) tt)
  = [{| submit_methodId := Some (lit "bolt");
        submit_paymentData :=
          @NonceData sampleTypes (lit "ref_1") (Some true) |}]
  /\ paymentsOf (runEvents closingHandler
                   (execute payloadWithPayment None clientOnlyStrategy) tt)
     = [].
Proof.
  split.
  - exact (proj2 (proj2 (proj2
      (@execute_client_only_payment sampleTypes unit (sampleHandler false) tt
         payloadWithPayment samplePayment None clientOnlyStrategy
         eq_refl eq_refl)))).
  - exact (proj1 (proj2 (proj2 (proj2
      (@execute_client_only_payment sampleTypes unit closingHandler tt
         payloadWithPayment samplePayment None clientOnlyStrategy
         eq_refl eq_refl))))).
Defined.

Lemma execute_client_only_store_credit_witness :
  storeCreditsOf (runEvents creditHandler
                    (execute payloadWithPayment None clientOnlyStrategy) tt)
  = [true]
  /\ storeCreditsOf (runEvents (sampleHandler false)
                       (execute payloadWithPayment None clientOnlyStrategy)
                       tt)
     = [].
Proof.
  split.
  - exact (@execute_client_only_store_credit sampleTypes unit creditHandler
             tt payloadWithPayment None clientOnlyStrategy eq_refl).
  - exact (@execute_client_only_store_credit sampleTypes unit
             (sampleHandler false) tt payloadWithPayment None
             clientOnlyStrategy eq_refl).
Defined.

Lemma deinitialize_keeps_embedded_payments_witness :
  callsOf (run (sampleHandler true)
             (execute payloadWithPayment None
                (fieldsAfter (run (sampleHandler true)
                                (deinitialize embeddedStrategy) tt))) tt)
  = callsOf (run (sampleHandler true)
               (execute payloadWithPayment None embeddedStrategy) tt).
Proof.
  apply (@deinitialize_keeps_embedded_payments sampleTypes unit unit
           (sampleHandler true) tt (sampleHandler true) tt payloadWithPayment
           None embeddedStrategy).
  reflexivity.
Defined.

Lemma embedded_field_never_cleared_witness :
  _embeddedField (fieldsAfter (run (sampleHandler false)
     (initialize (sampleOptions false None) embeddedStrategy) tt)) <> None
  /\ _embeddedField (fieldsAfter (run (sampleHandler true)
       (deinitialize embeddedStrategy) tt)) <> None.
Proof.
  split.
  - apply (@embedded_field_never_cleared sampleTypes unit
             (sampleHandler false) tt embeddedStrategy).
    discriminate.
  - apply (@embedded_field_never_cleared sampleTypes unit
             (sampleHandler true) tt embeddedStrategy).
    discriminate.
Defined.

Lemma validateTokenizeResult_needs_hyphen_witness :
  _validateTokenizeResult
    {| token := lit "tok_1"; last4 := lit "4242"; bin := lit "411111";
       expiration := lit "202509" |}
  = Rejected (PaymentArgumentInvalidError None).
Proof.
  apply validateTokenizeResult_needs_hyphen.
  simpl. intros H. repeat (destruct H as [H | H]; [ discriminate H | ]).
  exact H.
Defined.

Lemma validateTokenizeResult_accepts_digits_witness :
  _validateTokenizeResult sampleTokenize = Resolved tt
  /\ _validateTokenizeResult
       {| token := lit "t"; last4 := lit ""; bin := lit "";
          expiration := lit "-" |}
     = Resolved tt.
Proof.
  split.
  - apply (validateTokenizeResult_accepts_digits sampleTokenize
             (lit "2025") (lit "09"));
      try reflexivity.
    discriminate.
  - apply (validateTokenizeResult_accepts_digits
             {| token := lit "t"; last4 := lit ""; bin := lit "";
                expiration := lit "-" |} (lit "") (lit ""));
      try reflexivity.
    discriminate.
Defined.
